(** * HHI record management frontend: a shallow embedding of the client logic

    The development follows the TypeScript/JavaScript sources of the
    single-page frontend: the API helper [fetchApi], the patient edit form,
    the two visit forms, the legacy static profile page, the dashboard
    formatters, the patient-records list and the patient-detail view. The
    server-side delta computation behind [latest_changes] is not part of
    these sources; module [DerivedMetrics] states it as the specification
    describes it.

    Conventions.
    - A JavaScript string is a [string] of ASCII characters; letter case
      and white space are the ASCII ones.
    - A JavaScript number that holds an integer (page numbers, HTTP status
      codes, ages) is a [Z]; a possibly fractional finite number (a number
      of a JSON payload, a percentage) is a [Q], read as the exact value of
      the double.
    - [null] and [undefined] of an optional field are [None].
    - A promise that rejects and a statement that throws are both a [Throw]
      completion; [await] is the bind of the completion monad. *)

From Stdlib Require Import ZArith QArith Qround Qabs Lia Lqa Ascii.
From stdpp Require Import base option list sorting strings gmap pretty.

Set Warnings "-register-all".
Close Scope Q_scope.
Open Scope Z_scope.

(** ** JavaScript values and completions *)

Module JS.

(** Values produced by [JSON.parse]. *)
Inductive json : Type :=
| JNull
| JBool (b : bool)
| JNumber (n : Q)
| JString (s : string)
| JArray (xs : list json)
| JObject (fields : list (string * json)).

(** The exceptions the modelled code can raise or observe. *)
Inductive exn : Type :=
| Error (message : string)
| TypeError (message : string)
| SyntaxError (message : string).

Definition message (e : exn) : string :=
  match e with
  | Error m | TypeError m | SyntaxError m => m
  end.

(** Completion of a statement or of an awaited promise. *)
Inductive completion (A : Type) : Type :=
| Normal (a : A)
| Throw (e : exn).
Arguments Normal {A} a.
Arguments Throw {A} e.

#[global] Instance completion_ret : MRet completion := @Normal.
#[global] Instance completion_bind : MBind completion :=
  fun A B f m => match m with Normal a => f a | Throw e => Throw e end.

(** [try { body } catch (e) { handler e }] *)
Definition try_catch {A} (body : completion A) (handler : exn -> completion A)
  : completion A :=
  match body with
  | Normal a => Normal a
  | Throw e => handler e
  end.

(** Property read [v.k] on a parsed JSON value: reading a property of
    [null] throws, a missing property is [undefined] ([None]). *)
Fixpoint assoc {A} (k : string) (fields : list (string * A)) : option A :=
  match fields with
  | [] => None
  | (k', v) :: rest => if String.eqb k k' then Some v else assoc k rest
  end.

Definition get_prop (v : json) (k : string) : completion (option json) :=
  match v with
  | JNull => Throw (TypeError "Cannot read properties of null")
  | JObject fields => Normal (assoc k fields)
  | _ => Normal None
  end.

(** ToBoolean on a string and on an optional JSON value. *)
Definition truthy_string (s : string) : bool :=
  match s with EmptyString => false | _ => true end.

Definition truthy_text (v : option string) : bool :=
  match v with
  | Some s => truthy_string s
  | None => false
  end.

Definition truthy (v : option json) : bool :=
  match v with
  | None | Some JNull => false
  | Some (JBool b) => b
  | Some (JNumber n) => negb (Qeq_bool n 0)
  | Some (JString s) => truthy_string s
  | Some (JArray _) | Some (JObject _) => true
  end.

(** *** Strings *)

Definition is_upper (c : ascii) : bool :=
  let n := nat_of_ascii c in (65 <=? n)%nat && (n <=? 90)%nat.

Definition lower_char (c : ascii) : ascii :=
  if is_upper c then ascii_of_nat (nat_of_ascii c + 32) else c.

(** [s.toLowerCase()] *)
Fixpoint toLowerCase (s : string) : string :=
  match s with
  | EmptyString => EmptyString
  | String c r => String (lower_char c) (toLowerCase r)
  end.

(** White space and line terminators removed by [trim]. *)
Definition is_space (c : ascii) : bool := Ascii.is_space c.

Definition is_empty (s : string) : bool := negb (truthy_string s).

Fixpoint trimStart (s : string) : string :=
  match s with
  | EmptyString => EmptyString
  | String c r => if is_space c then trimStart r else s
  end.

Fixpoint trimEnd (s : string) : string :=
  match s with
  | EmptyString => EmptyString
  | String c r =>
      let r' := trimEnd r in
      if is_space c && is_empty r' then EmptyString else String c r'
  end.

(** [s.trim()] *)
Definition trim (s : string) : string := trimEnd (trimStart s).

(** [s.startsWith(t)] *)
Fixpoint startsWith (s t : string) {struct t} : bool :=
  match t, s with
  | EmptyString, _ => true
  | String _ _, EmptyString => false
  | String c t', String d s' => Ascii.eqb c d && startsWith s' t'
  end.

(** [s.includes(t)] *)
Fixpoint includes (s t : string) : bool :=
  startsWith s t ||
  match s with
  | EmptyString => false
  | String _ r => includes r t
  end.

(** [s.split(sep)] for a one-character separator. *)
Fixpoint split (sep : ascii) (s : string) : list string :=
  match s with
  | EmptyString => [EmptyString]
  | String c r =>
      if Ascii.eqb c sep then EmptyString :: split sep r
      else match split sep r with
           | h :: t => String c h :: t
           | [] => [String c EmptyString]
           end
  end.

(** A template-literal hole filled with a possibly [undefined] string. *)
Definition interpolate (v : option string) : string :=
  default "undefined" v.

(** *** Numbers read from text *)

(** A number as [Number(text)] yields it: [None] is [NaN] (or an infinity),
    which [JSON.stringify] writes as [null]. *)
Definition number : Type := option Q.

(** [JSON.stringify] of a field holding a number or [null]. *)
Definition wire_number (v : option number) : json :=
  match v with
  | Some (Some q) => JNumber q
  | Some None | None => JNull
  end.

End JS.

(** ** services/api: [fetchApi] *)

Module Api.
Import JS.

Definition API_BASE_URL : string := "http://127.0.0.1:5000".

Record RequestInit := {
  method : option string;
  headers : list (string * string);
  body : option string
}.

Definition no_options : RequestInit :=
  {| method := None; headers := []; body := None |}.

(** What the code reads of a [Response]: [ok], [status] and the outcome of
    [response.json()], which rejects when the payload is not JSON
    ([payload = None]). *)
Record Response := {
  ok : bool;
  status : Z;
  payload : option json
}.

Definition response_json (r : Response) : completion json :=
  match payload r with
  | Some v => Normal v
  | None => Throw (SyntaxError "Unexpected token in JSON")
  end.

(** The endpoint requested by [dashboardApi.getMetrics]: the date
    parameters are appended as they were handed in. *)
Definition getMetrics_endpoint (startDate endDate : option string) : string :=
  let url := "/dashboard/metrics" in
  if truthy_text startDate && truthy_text endDate
  then url +:+ "?start_date=" +:+ interpolate startDate
           +:+ "&end_date=" +:+ interpolate endDate
  else url.

Section FetchApi.
(** The network: [fetch(url, init)] resolves to a response or rejects. *)
Variable fetch : string -> RequestInit -> completion Response.
(** [String(v)] as applied by [new Error(v)] to a value that is not a
    string. *)
Variable ToString : json -> string.

Definition new_Error (v : json) : exn :=
  match v with
  | JString s => Error s
  | _ => Error (ToString v)
  end.

Definition generic_message (r : Response) : string :=
  "API error: " +:+ pretty (status r).

Definition fetchApi (endpoint : string) (options : RequestInit)
  : completion json :=
  let url := API_BASE_URL +:+ endpoint in
  response ← fetch url
    {| method := method options;
       headers := ("Content-Type", "application/json") :: headers options;
       body := body options |};
  if negb (ok response) then
    try_catch
      (errorData ← response_json response;
       err ← get_prop errorData "error";
       Throw (new_Error
                (if truthy err then default JNull err
                 else JString (generic_message response))))
      (fun e => Throw (Error (generic_message response)))
  else response_json response.

(** [patientApi] *)
Definition getPatients (page limit : Z) : completion json :=
  fetchApi ("/patients?page=" +:+ pretty page +:+ "&limit=" +:+ pretty limit)
           no_options.

Definition deletePatient (clientId : string) : completion json :=
  fetchApi ("/patients/" +:+ clientId)
           {| method := Some "DELETE"; headers := []; body := None |}.

(** [dashboardApi] *)
Definition getMetrics (startDate endDate : option string) : completion json :=
  fetchApi (getMetrics_endpoint startDate endDate) no_options.

End FetchApi.
End Api.

(** ** components/patients/EditPatientForm *)

Module EditPatientForm.
Import JS.

(** Goal mapping, in the order of the object literal. *)
Definition GOAL_MAPPING : list (string * string) :=
  [ ("increased_fruit_veg", "INCREASED DAILY FRUIT/ VEGETABLE PORTIONS");
    ("increased_water", "INCREASE DAILY WATER INTAKE");
    ("increased_exercise", "INCREASED WEEKLY EXERCISE");
    ("cut_tv_viewing", "CUT TV VIEWING TO < 2 HOURS/ DAY");
    ("eat_breakfast", "EAT BREAKFAST DAILY");
    ("limit_alcohol", "LIMIT DAILY ALCOHOL CONSUMPTION WOMAN =1, MAN=2");
    ("no_late_eating", "DO NOT EAT AT LEAST 3 HOURS BEFORE GOING TO BED");
    ("more_whole_grains", "EATS MORE WHOLE WHEAT/ GRAINS DAILY");
    ("less_fried_foods", "EATS LESS FRIED FOODS OR MEATS");
    ("low_fat_milk", "DRINKS LOW FAT OR SKIM MILK");
    ("lower_salt", "LOWERED SALT INTAKE");
    ("annual_checkup", "RECEIVE AN ANNUAL CHECK-UP");
    ("quit_smoking", "QUIT SMOKING") ].

(** [Object.keys(GOAL_MAPPING)] and [Object.values(GOAL_MAPPING)]. *)
Definition goal_keys : list string := GOAL_MAPPING.*1.
Definition HEALTH_GOALS : list string := GOAL_MAPPING.*2.

(** [value === 1] *)
Definition is_one (v : json) : bool :=
  match v with
  | JNumber n => Qeq_bool n 1
  | _ => false
  end.

Definition non_goal_property (key : string) : bool :=
  String.eqb key "client_id" || String.eqb key "visit_date"
  || String.eqb key "visit_id".

(** [getActiveGoalsFromData]: the argument is [Object.entries] of the goals
    object, [None] when the object is null or undefined. *)
Definition getActiveGoalsFromData (goalsData : option (list (string * json)))
  : list string :=
  match goalsData with
  | None => []
  | Some entries =>
      let active :=
        List.filter (fun '(key, value) =>
                       if non_goal_property key then false else is_one value)
                    entries in
      let labels :=
        List.map (fun '(key, _) => default EmptyString (assoc key GOAL_MAPPING))
                 active in
      List.filter truthy_string labels
  end.

(** [formatDateForAPI] of [handleSubmit]; [split] does not throw, so the
    [catch] arm that returns the text unchanged is never taken. *)
Definition formatDateForAPI (dateStr : option string) : string :=
  match dateStr with
  | None => EmptyString
  | Some s =>
      if negb (truthy_string s) then EmptyString
      else
        let result :=
          try_catch
            (let parts := split "-" s in
             Normal (interpolate (parts !! 1%nat) +:+ "/" +:+
                     interpolate (parts !! 2%nat) +:+ "/" +:+
                     interpolate (parts !! 0%nat)))
            (fun _ => Normal s) in
        match result with
        | Normal r => r
        | Throw _ => s
        end
  end.

(** The API key of a display name:
    [Object.entries(GOAL_MAPPING).find(([_, value]) => value === goal)?.[0]] *)
Definition find_api_key (goal : string) : option string :=
  fst <$> List.find (fun '(_, value) => String.eqb value goal) GOAL_MAPPING.

(** The [goalsData] object built by [handleSubmit]. *)
Definition handleSubmit_goalsData (selectedGoals : list string)
  : gmap string json :=
  let zeroed :=
    foldl (fun goalsData apiKey => <[apiKey := JNumber 0]> goalsData)
          ∅ goal_keys in
  foldl (fun goalsData goal =>
           match find_api_key goal with
           | Some apiKey =>
               if truthy_string apiKey
               then <[apiKey := JNumber 1]> goalsData
               else goalsData
           | None => goalsData
           end)
        zeroed selectedGoals.

(** The object handed to [onSubmit]. [form] is [FormData.get]. *)
Record data := {
  first_name : option string;
  last_name : option string;
  gender : option string;
  age : number;
  race : option string;
  primary_lang : option string;
  insurance : option string;
  phone : option string;
  zipcode : option string;
  height : option string;
  birthdate : string;
  client_id : string;
  goals : gmap string json
}.

Definition handleSubmit (Number : option string -> number)
    (form : string -> option string) (patient_client_id : string)
    (selectedGoals : list string) : data :=
  {| first_name := form "firstName";
     last_name := form "lastName";
     gender := form "gender";
     age := Number (form "age");
     race := form "race";
     primary_lang := form "primaryLanguage";
     insurance := form "insurance";
     phone := form "phone";
     zipcode := form "zipCode";
     height := form "height";
     birthdate := formatDateForAPI (form "birthdate");
     client_id := patient_client_id;
     goals := handleSubmit_goalsData selectedGoals |}.

End EditPatientForm.

(** ** components/patients/NewVisitForm (src/unnamed/part_002) *)

Module NewVisitForm.
Import JS.

Definition GOALS_MAPPING : list (string * string) :=
  [ ("increased_fruit_veg", "Increase Fruit & Vegetable Intake");
    ("increased_water", "Increase Water Intake");
    ("increased_exercise", "Increase Physical Activity");
    ("cut_tv_viewing", "Reduce Screen Time");
    ("eat_breakfast", "Eat Breakfast Daily");
    ("limit_alcohol", "Limit Alcohol Consumption");
    ("no_late_eating", "Avoid Late Night Eating");
    ("more_whole_grains", "Eat More Whole Grains");
    ("less_fried_foods", "Reduce Fried Food Consumption");
    ("low_fat_milk", "Use Low-Fat Dairy Products");
    ("lower_salt", "Reduce Salt Intake");
    ("annual_checkup", "Schedule Annual Check-up");
    ("quit_smoking", "Quit Smoking") ].

(** [formatDateForAPI] of [handleSubmit]. *)
Definition formatDateForAPI (dateStr : option string) : string :=
  match dateStr with
  | None => EmptyString
  | Some s =>
      if negb (truthy_string s) then EmptyString
      else
        let parts := split "-" s in
        interpolate (parts !! 1%nat) +:+ "/" +:+
        interpolate (parts !! 2%nat) +:+ "/" +:+
        interpolate (parts !! 0%nat)
  end.

Definition goalsData (selectedGoals : list string) : gmap string json :=
  let zeroed :=
    foldl (fun acc key => <[key := JNumber 0]> acc) ∅ (GOALS_MAPPING.*1) in
  foldl (fun acc goalDisplayName =>
           match fst <$> List.find (fun '(_, value) =>
                                      String.eqb value goalDisplayName)
                                   GOALS_MAPPING with
           | Some apiKey =>
               if truthy_string apiKey then <[apiKey := JNumber 1]> acc
               else acc
           | None => acc
           end)
        zeroed selectedGoals.

Record visitData := {
  client_id : string;
  visit_date : string;
  visit_time : string;
  event_type : option string;
  referral_source : option string;
  follow_up : option string;
  hra : option string;
  edu : option string;
  case_management : option string;
  systolic : option number;
  diastolic : option number;
  cholesterol : option number;
  fasting : option string;
  glucose : option number;
  height : option number;
  weight : option number;
  a1c : option number;
  acquired_by : option string;
  goals : option (gmap string json)
}.

Section HandleSubmit.
(** [Number(text)] on the text of a form control. *)
Variable Number : string -> number.
(** [new Date().toLocaleTimeString(...)] at submission. *)
Variable now : string.
(** [formData.get(name)] *)
Variable form : string -> option string.

(** [formData.get(name) ? Number(formData.get(name)) : null] *)
Definition measured (name : string) : option number :=
  match form name with
  | Some text => if truthy_string text then Some (Number text) else None
  | None => None
  end.

Definition handleSubmit (clientId : string) (selectedGoals : list string)
  : visitData :=
  let goalsData := goalsData selectedGoals in
  {| client_id := clientId;
     visit_date := formatDateForAPI (form "visitDate");
     visit_time :=
       match form "visitTime" with
       | Some t => if truthy_string t then t else now
       | None => now
       end;
     event_type := form "eventType";
     referral_source := form "referralSource";
     follow_up := form "followUp";
     hra := form "hra";
     edu := form "edu";
     case_management := form "caseManagement";
     systolic := measured "systolic";
     diastolic := measured "diastolic";
     cholesterol := measured "cholesterol";
     fasting := form "fasting";
     glucose := measured "glucose";
     height := measured "height";
     weight := measured "weight";
     a1c := measured "a1c";
     acquired_by := form "acquiredBy";
     goals := if bool_decide (0 < size goalsData)%nat
              then Some goalsData else None |}.
End HandleSubmit.
End NewVisitForm.

(** ** components/patients/NewVisitForm, the revision that sends goals only
       when they were edited (src/unnamed/part_003) *)

Module NewVisitFormGoalEdit.
Import JS.

Definition GOALS_MAPPING : list (string * string) :=
  NewVisitForm.GOALS_MAPPING.

Definition formatDateForAPI (dateStr : option string) : string :=
  match dateStr with
  | None => EmptyString
  | Some s =>
      if negb (truthy_string s) then EmptyString
      else
        let parts := split "-" s in
        interpolate (parts !! 1%nat) +:+ "/" +:+
        interpolate (parts !! 2%nat) +:+ "/" +:+
        interpolate (parts !! 0%nat)
  end.

(** [JSON.stringify(selectedGoals.sort()) !== JSON.stringify(initialGoals.sort())] *)
Definition goalsHaveChanged (selectedGoals initialGoals : list string) : bool :=
  negb (bool_decide (merge_sort String.le selectedGoals
                     = merge_sort String.le initialGoals)).

Section HandleSubmit.
Variable Number : string -> number.
Variable now : string.
Variable form : string -> option string.

Definition measured (name : string) : option number :=
  match form name with
  | Some text => if truthy_string text then Some (Number text) else None
  | None => None
  end.

Definition handleSubmit (clientId : string) (editingGoals : bool)
    (selectedGoals initialGoals : list string) : NewVisitForm.visitData :=
  let goalsData :=
    if editingGoals && goalsHaveChanged selectedGoals initialGoals
    then Some (NewVisitForm.goalsData selectedGoals) else None in
  {| NewVisitForm.client_id := clientId;
     NewVisitForm.visit_date := formatDateForAPI (form "visitDate");
     NewVisitForm.visit_time :=
       match form "visitTime" with
       | Some t => if truthy_string t then t else now
       | None => now
       end;
     NewVisitForm.event_type := form "eventType";
     NewVisitForm.referral_source := form "referralSource";
     NewVisitForm.follow_up := form "followUp";
     NewVisitForm.hra := form "hra";
     NewVisitForm.edu := form "edu";
     NewVisitForm.case_management := form "caseManagement";
     NewVisitForm.systolic := measured "systolic";
     NewVisitForm.diastolic := measured "diastolic";
     NewVisitForm.cholesterol := measured "cholesterol";
     NewVisitForm.fasting := form "fasting";
     NewVisitForm.glucose := measured "glucose";
     NewVisitForm.height := measured "height";
     NewVisitForm.weight := measured "weight";
     NewVisitForm.a1c := measured "a1c";
     NewVisitForm.acquired_by := form "acquiredBy";
     NewVisitForm.goals := goalsData |}.
End HandleSubmit.
End NewVisitFormGoalEdit.

(** ** static/profile.js: [addPatientVisit] of the legacy profile page *)

Module Profile.
Import JS.

(** [text || fallback]: the text of the control unless it is empty. *)
Definition or_default (text : string) (fallback : json) : json :=
  if truthy_string text then JString text else fallback.

Record formData := {
  visit_date : string;
  event_type : string;
  referral_source : string;
  follow_up : string;
  hra : json;
  edu : json;
  case_management : json;
  systolic : json;
  diastolic : json;
  cholesterol : json;
  fasting : json;
  glucose : json;
  height : json;
  weight : json;
  bmi : json;
  a1c : json;
  acquired_by : json
}.

(** [value] is [document.getElementById(id).value]. *)
Definition addPatientVisit_formData (value : string -> string) : formData :=
  {| visit_date := value "visitDate";
     event_type := value "eventType";
     referral_source := value "referralSource";
     follow_up := value "followUp";
     hra := or_default (value "hra") (JNumber 0);
     edu := or_default (value "edu") (JNumber 0);
     case_management := or_default (value "caseManagement") (JNumber 0);
     systolic := or_default (value "systolic") (JNumber 0);
     diastolic := or_default (value "diastolic") (JNumber 0);
     cholesterol := or_default (value "cholesterol") (JNumber 0);
     fasting := or_default (value "fasting") (JString "No");
     glucose := or_default (value "glucose") (JNumber 0);
     height := or_default (value "height") (JNumber 0);
     weight := or_default (value "weight") (JNumber 0);
     bmi := or_default (value "bmi") (JNumber 0);
     a1c := or_default (value "a1c") (JNumber 0);
     acquired_by := or_default (value "acquiredBy") (JString EmptyString) |}.

(** What the user is shown once the request of [addPatientVisit] has
    settled. *)
Inductive feedback :=
| Popup (text : string)
| Alert (text : string).

(** The part of [addPatientVisit] after [fetch]: a response that is not OK
    throws the server's message, and the [catch] arm of the function shows
    it in an alert. *)
Definition addPatientVisit_feedback (ToString : json -> string)
    (fetched : completion Api.Response) : feedback :=
  let attempt : completion unit :=
    response ← fetched;
    if negb (Api.ok response) then
      errorData ← Api.response_json response;
      err ← get_prop errorData "error";
      Throw (Api.new_Error ToString
               (if truthy err then default JNull err
                else JString "Unknown error occurred."))
    else Normal tt in
  match attempt with
  | Normal _ => Popup "Visit added successfully!"
  | Throw error => Alert ("An error occurred: " +:+ message error)
  end.

End Profile.

(** ** The visit-creation paths side by side *)

Module VisitCreation.
Import JS.

Inductive measurement :=
| Systolic | Diastolic | Cholesterol | Glucose | Height | Weight | A1c.

(** Name of the form control, the same on every page. *)
Definition control (m : measurement) : string :=
  match m with
  | Systolic => "systolic" | Diastolic => "diastolic"
  | Cholesterol => "cholesterol" | Glucose => "glucose"
  | Height => "height" | Weight => "weight" | A1c => "a1c"
  end.

Definition of_visitData (m : measurement) (d : NewVisitForm.visitData)
  : option number :=
  match m with
  | Systolic => NewVisitForm.systolic d
  | Diastolic => NewVisitForm.diastolic d
  | Cholesterol => NewVisitForm.cholesterol d
  | Glucose => NewVisitForm.glucose d
  | Height => NewVisitForm.height d
  | Weight => NewVisitForm.weight d
  | A1c => NewVisitForm.a1c d
  end.

Definition of_formData (m : measurement) (d : Profile.formData) : json :=
  match m with
  | Systolic => Profile.systolic d
  | Diastolic => Profile.diastolic d
  | Cholesterol => Profile.cholesterol d
  | Glucose => Profile.glucose d
  | Height => Profile.height d
  | Weight => Profile.weight d
  | A1c => Profile.a1c d
  end.

(** One submission of a visit form: the page it was made from together
    with everything the handler reads. *)
Inductive submission :=
| SubmitReact (Number : string -> number) (now : string)
    (form : string -> option string) (clientId : string)
    (selectedGoals : list string)
| SubmitReactGoalEdit (Number : string -> number) (now : string)
    (form : string -> option string) (clientId : string)
    (editingGoals : bool) (selectedGoals initialGoals : list string)
| SubmitLegacy (value : string -> string).

(** The text held by the control of measurement [m]; a control the user
    left blank holds the empty text. *)
Definition entered (s : submission) (m : measurement) : option string :=
  match s with
  | SubmitReact _ _ form _ _ => form (control m)
  | SubmitReactGoalEdit _ _ form _ _ _ _ => form (control m)
  | SubmitLegacy value => Some (value (control m))
  end.

Definition left_blank (s : submission) (m : measurement) : Prop :=
  entered s m = Some EmptyString.

(** What the JSON request body carries for measurement [m]. *)
Definition transmitted (s : submission) (m : measurement) : json :=
  match s with
  | SubmitReact Number now form clientId selectedGoals =>
      wire_number
        (of_visitData m
           (NewVisitForm.handleSubmit Number now form clientId selectedGoals))
  | SubmitReactGoalEdit Number now form clientId editing selected initial =>
      wire_number
        (of_visitData m
           (NewVisitFormGoalEdit.handleSubmit Number now form clientId
              editing selected initial))
  | SubmitLegacy value =>
      of_formData m (Profile.addPatientVisit_formData value)
  end.

End VisitCreation.

(** ** components/dashboard/Dashboard *)

Module Dashboard.
Import JS.

Fixpoint zeros (n : nat) : string :=
  match n with
  | O => EmptyString
  | S n' => String "0" (zeros n')
  end.

Definition pad_left (width : nat) (s : string) : string :=
  zeros (width - String.length s) +:+ s.

(** [x.toFixed(fractionDigits)] in positional notation, as the method
    produces it for a finite [x] of magnitude below 10^21: [n] is the
    integer nearest to |x| * 10^f (the larger one on a tie), printed with
    the point before its last [f] digits and the sign of [x] in front. *)
Definition toFixed (fractionDigits : nat) (x : Q) : string :=
  let sign := if Qlt_le_dec x 0%Q then "-" else EmptyString in
  let scale := 10 ^ Z.of_nat fractionDigits in
  let n := Qfloor (Qabs x * inject_Z scale + (1 # 2))%Q in
  match fractionDigits with
  | O => sign +:+ pretty n
  | _ => sign +:+ pretty (n / scale) +:+ "." +:+
         pad_left fractionDigits (pretty (n mod scale))
  end.

(** Format percentage *)
Definition formatPercentage (percentage : option Q) : string :=
  match percentage with
  | None => "N/A"
  | Some p =>
      if Qlt_le_dec 0%Q p
      then "+" +:+ toFixed 1 p +:+ "%"
      else toFixed 1 p +:+ "%"
  end.

(** Determine trend direction *)
Definition getTrend (percentage : option Q) : string :=
  match percentage with
  | None => "up"
  | Some p => if Qle_bool 0 p then "up" else "down"
  end.

(** The date range of the dashboard and its two date controls. *)
Record DateRange := {
  range_start : string;
  range_end : string
}.

Definition onChangeStart (prev : DateRange) (value : string) : DateRange :=
  {| range_start := value; range_end := range_end prev |}.

Definition onChangeEnd (prev : DateRange) (value : string) : DateRange :=
  {| range_start := range_start prev; range_end := value |}.

(** The metrics request issued by [fetchDashboardData]. *)
Definition metrics_endpoint (dateRange : DateRange) : string :=
  Api.getMetrics_endpoint (Some (range_start dateRange))
                          (Some (range_end dateRange)).

End Dashboard.

(** ** Dates on their way to the API *)

Module DateBoundary.
Import JS.

(** The requests that carry the value of a date control. *)
Inductive sender :=
| PatientUpdate
| VisitCreate
| VisitCreateGoalEdit
| DashboardMetrics.

(** A form in which the date control [name] holds [value]. *)
Definition form_with (name value : string) : string -> option string :=
  fun control => if String.eqb control name then Some value else Some EmptyString.

(** The text in which the value [input] of the date control reaches the
    API: the date member of the JSON body for the three forms, the
    endpoint with its query string for the dashboard (both controls set to
    [input]). *)
Definition transmitted (s : sender) (input : string) : string :=
  match s with
  | PatientUpdate =>
      EditPatientForm.birthdate
        (EditPatientForm.handleSubmit (fun _ => None)
           (form_with "birthdate" input) EmptyString [])
  | VisitCreate =>
      NewVisitForm.visit_date
        (NewVisitForm.handleSubmit (fun _ => None) EmptyString
           (form_with "visitDate" input) EmptyString [])
  | VisitCreateGoalEdit =>
      NewVisitForm.visit_date
        (NewVisitFormGoalEdit.handleSubmit (fun _ => None) EmptyString
           (form_with "visitDate" input) EmptyString false [] [])
  | DashboardMetrics =>
      Dashboard.metrics_endpoint
        (Dashboard.onChangeEnd
           (Dashboard.onChangeStart
              {| Dashboard.range_start := EmptyString;
                 Dashboard.range_end := EmptyString |} input) input)
  end.

End DateBoundary.

(** ** components/patients/PatientRecords (src/unnamed/part_004) *)

Module PatientRecords.
Import JS.

(** A row of the list. [id] holds the [client_id] of the API row. *)
Record Patient := {
  id : string;
  name : string;
  age : Z;
  gender : string;
  lastVisit : string;
  nextAppointment : string;
  contact : string
}.

#[global] Instance Patient_eq_dec : EqDecision Patient.
Proof. solve_decision. Defined.

(** A patient as the list endpoint returns it. *)
Record ApiPatient := {
  client_id : string;
  first_name : string;
  last_name : string;
  api_age : Z;
  api_gender : string;
  first_visit_date : string;
  phone : option string
}.

Record Pagination := {
  total : Z;
  page : Z;
  limit : Z;
  pages : Z
}.

Record PatientsPage := {
  data_patients : list ApiPatient;
  data_pagination : Pagination
}.

Record Toast := {
  toast_message : string;
  toast_type : string
}.

(** The component state ([useState] cells). *)
Record State := {
  sortField : string;
  sortDirection : string;
  searchQuery : string;
  selectedPatient : option Patient;
  isDeleteModalOpen : bool;
  toastMessage : option Toast;
  patients : list Patient;
  loading : bool;
  error : option string;
  pagination : Pagination
}.

Definition transform (patient : ApiPatient) : Patient :=
  {| id := client_id patient;
     name := first_name patient +:+ " " +:+ last_name patient;
     age := api_age patient;
     gender := api_gender patient;
     lastVisit := first_visit_date patient;
     nextAppointment := EmptyString;
     contact := match phone patient with
                | Some p => if truthy_string p then p else "N/A"
                | None => "N/A"
                end |}.

(** [filterPatients] *)
Definition matches (searchTerm : string) (patient : Patient) : bool :=
  includes (toLowerCase (name patient)) searchTerm
  || includes (toLowerCase (gender patient)) searchTerm
  || includes (toLowerCase (contact patient)) searchTerm
  || includes (pretty (age patient)) searchTerm.

Definition filterPatients (patients : list Patient) (query : string)
  : list Patient :=
  if negb (truthy_string (trim query)) then patients
  else
    let searchTerm := trim (toLowerCase query) in
    List.filter (matches searchTerm) patients.

(** [a[sortField]]: the value of a row under a property name. *)
Inductive value :=
| VString (s : string)
| VNumber (n : Z)
| VUndefined.

Definition property (p : Patient) (key : string) : value :=
  if String.eqb key "id" then VString (id p)
  else if String.eqb key "name" then VString (name p)
  else if String.eqb key "age" then VNumber (age p)
  else if String.eqb key "gender" then VString (gender p)
  else if String.eqb key "lastVisit" then VString (lastVisit p)
  else if String.eqb key "nextAppointment" then VString (nextAppointment p)
  else if String.eqb key "contact" then VString (contact p)
  else VUndefined.

(** [a > b] on two values of one kind; a comparison with [undefined] is
    false. *)
Definition greater (a b : value) : bool :=
  match a, b with
  | VString x, VString y => String.ltb y x
  | VNumber x, VNumber y => y <? x
  | _, _ => false
  end.

(** The comparison function handed to [sort]. *)
Definition compareRows (sortField sortDirection : string) (a b : Patient) : Z :=
  let aValue := property a sortField in
  let bValue := property b sortField in
  if String.eqb sortDirection "asc"
  then (if greater aValue bValue then 1 else -1)
  else (if greater bValue aValue then 1 else -1).

(** [a] may stay in front of [b]. *)
Definition before (sortField sortDirection : string) (a b : Patient) : Prop :=
  compareRows sortField sortDirection a b <= 0.

#[global] Instance before_dec f d : RelDecision (before f d).
Proof. intros a b. unfold before. apply _. Defined.

(** [[...filtered].sort(compare)], as a merge sort driven by the
    comparison function. *)
Definition filteredAndSortedPatients (st : State) : list Patient :=
  let filtered := filterPatients (patients st) (searchQuery st) in
  merge_sort (before (sortField st) (sortDirection st)) filtered.

(** Calls made to [patientApi], in order. *)
Inductive call :=
| DeletePatient (clientId : string)
| GetPatients (page limit : Z).

Section Handlers.
(** [patientApi.deletePatient] and [patientApi.getPatients]. *)
Variable deletePatient : string -> completion json.
Variable getPatients : Z -> Z -> completion PatientsPage.

(** The Delete button of a row. *)
Definition handleDelete (st : State) (patient : Patient) : State :=
  {| sortField := sortField st;
     sortDirection := sortDirection st;
     searchQuery := searchQuery st;
     selectedPatient := Some patient;
     isDeleteModalOpen := true;
     toastMessage := toastMessage st;
     patients := patients st;
     loading := loading st;
     error := error st;
     pagination := pagination st |}.

Definition with_feedback (st : State) (open : bool) (t : Toast)
    (busy : bool) : State :=
  {| sortField := sortField st;
     sortDirection := sortDirection st;
     searchQuery := searchQuery st;
     selectedPatient := selectedPatient st;
     isDeleteModalOpen := open;
     toastMessage := Some t;
     patients := patients st;
     loading := busy;
     error := error st;
     pagination := pagination st |}.

Definition with_page (st : State) (rows : list Patient) (p : Pagination)
  : State :=
  {| sortField := sortField st;
     sortDirection := sortDirection st;
     searchQuery := searchQuery st;
     selectedPatient := selectedPatient st;
     isDeleteModalOpen := isDeleteModalOpen st;
     toastMessage := toastMessage st;
     patients := rows;
     loading := false;
     error := error st;
     pagination := p |}.

(** The page to refetch after a deletion. *)
Definition newPage (st : State) : Z :=
  let currentPage := page (pagination st) in
  let itemsOnCurrentPage := length (filteredAndSortedPatients st) in
  if (itemsOnCurrentPage =? 1)%nat && (1 <? currentPage)
  then currentPage - 1
  else currentPage.

(** [handleDeleteConfirm]: the state after the handler has run and the
    API calls it made. *)
Definition handleDeleteConfirm (st : State) : State * list call :=
  match selectedPatient st with
  | None => (st, [])
  | Some selected =>
      match deletePatient (id selected) with
      | Throw e =>
          (with_feedback st false
             {| toast_message := message e; toast_type := "error" |}
             (loading st),
           [DeletePatient (id selected)])
      | Normal _ =>
          let st1 :=
            with_feedback st false
              {| toast_message := "Patient deleted successfully";
                 toast_type := "success" |}
              true in
          let page' := newPage st in
          let limit' := limit (pagination st) in
          let calls := [DeletePatient (id selected);
                        GetPatients page' limit'] in
          match getPatients page' limit' with
          | Normal data =>
              (with_page st1 (transform <$> data_patients data)
                 {| total := total (data_pagination data);
                    page := page';
                    limit := limit (data_pagination data);
                    pages := pages (data_pagination data) |},
               calls)
          | Throw _ =>
              (with_page st1 (patients st1) (pagination st1), calls)
          end
      end
  end.
End Handlers.
End PatientRecords.

(** ** components/patients/PatientDetail: the Recent Changes panel *)

Module PatientDetail.
Import JS.

(** [latest_changes] of [PatientDetailData]; an absent member is [None]. *)
Record LatestChanges := {
  systolic_change : option string;
  diastolic_change : option string;
  cholesterol_change : option string;
  glucose_change : option string;
  weight_change : option string;
  bmi_change : option string;
  a1c_change : option string;
  weight_percentage_change : option string
}.

(** Rendered output: text and elements with their class names. *)
Inductive node :=
| Text (s : string)
| Element (tag className : string) (children : list node).

Fixpoint textContent (n : node) : string :=
  match n with
  | Text s => s
  | Element _ _ children =>
      (fix all (ns : list node) : string :=
         match ns with
         | [] => EmptyString
         | c :: rest => textContent c +:+ all rest
         end) children
  end.

(** [cond && <jsx/>] on an optional string: nothing is rendered for
    [null], [undefined] and the empty string. *)
Definition when_present (v : option string) (jsx : string -> list node)
  : list node :=
  match v with
  | Some s => if truthy_string s then jsx s else []
  | None => []
  end.

Definition change_colour (change : string) : string :=
  if startsWith change "+" then "text-red-600 dark:text-red-400"
  else if startsWith change "-" then "text-green-600 dark:text-green-400"
  else "text-gray-900 dark:text-gray-100".

Definition caption (label : string) : node :=
  Element "p" "text-sm text-gray-500 dark:text-gray-400" [Text label].

(** A metric of the panel: caption, then the change with its unit. *)
Definition change_row (label unit : string) (extra : list node)
    (change : string) : list node :=
  [Element "div" EmptyString
     [caption label;
      Element "p" ("font-medium " +:+ change_colour change)
              (Text change :: Text unit :: extra)]].

Definition weight_row (c : LatestChanges) : list node :=
  when_present (weight_change c)
    (change_row "Weight" " lbs"
       (when_present (weight_percentage_change c)
          (fun pct => [Element "span" "ml-1 text-xs"
                               [Text "("; Text pct; Text ")"]]))).

(** The panel, rendered only when [latest_changes] is not null. *)
Definition recent_changes (latest_changes : option LatestChanges)
  : list node :=
  match latest_changes with
  | None => []
  | Some c =>
      [Element "div" "bg-white dark:bg-gray-800 rounded-lg shadow-sm p-6 mt-6"
         [Element "h3"
            "text-lg font-medium text-gray-800 dark:text-gray-200 mb-4"
            [Text "Recent Changes"];
          Element "div" "grid grid-cols-2 gap-4"
            (when_present (systolic_change c)
               (change_row "Systolic Blood Pressure" " mmHg" [])
             ++ when_present (diastolic_change c)
                  (change_row "Diastolic Blood Pressure" " mmHg" [])
             ++ when_present (cholesterol_change c)
                  (change_row "Cholesterol" " mg/dL" [])
             ++ when_present (glucose_change c)
                  (change_row "Blood Glucose" " mg/dL" [])
             ++ weight_row c
             ++ when_present (bmi_change c) (change_row "BMI" EmptyString [])
             ++ when_present (a1c_change c) (change_row "A1C" "%" []))]]
  end.

End PatientDetail.

(** ** The derived-metrics computation behind [latest_changes] *)

Module DerivedMetrics.
Import JS.

(** Modelled from the spec: the visit row read by the server-side delta
    computation, which is not among the sources. A measurement that was
    not taken is [None]. *)
Record Visit := {
  visit_date : string;
  systolic : option Z;
  diastolic : option Z;
  cholesterol : option Z;
  glucose : option Z;
  weight : option Z;
  bmi : option Z;
  a1c : option Z
}.

(** Modelled from the spec: the signed delta as text, [+] in front of an
    increase (the view colours a change by its leading [+] or [-]). *)
Definition signed (delta : Z) : string :=
  if 0 <? delta then "+" +:+ pretty delta else pretty delta.

(** Modelled from the spec: the delta of one metric between the two most
    recent visits; a metric missing from either visit is skipped. *)
Definition change (metric : Visit -> option Z) (previous latest : Visit)
  : option string :=
  match metric previous, metric latest with
  | Some a, Some b => Some (signed (b - a))
  | _, _ => None
  end.

(** Modelled from the spec: the percentage change relative to the earlier
    value, to one decimal place; not applicable when the earlier value is
    zero. *)
Definition percentage_change (metric : Visit -> option Z)
    (previous latest : Visit) : option string :=
  match metric previous, metric latest with
  | Some a, Some b =>
      if a =? 0 then None
      else
        let pct := ((inject_Z (b - a) / inject_Z a) * 100)%Q in
        Some ((if Qlt_le_dec 0%Q pct then "+" else EmptyString)
              +:+ Dashboard.toFixed 1 pct +:+ "%")
  | _, _ => None
  end.

(** Modelled from the spec: the delta computation over a visit history
    ordered from the oldest visit to the most recent one; with fewer than
    two visits there is no data. *)
Definition latest_changes (history : list Visit)
  : option PatientDetail.LatestChanges :=
  match reverse history with
  | latest :: previous :: _ =>
      Some {| PatientDetail.systolic_change := change systolic previous latest;
              PatientDetail.diastolic_change := change diastolic previous latest;
              PatientDetail.cholesterol_change :=
                change cholesterol previous latest;
              PatientDetail.glucose_change := change glucose previous latest;
              PatientDetail.weight_change := change weight previous latest;
              PatientDetail.bmi_change := change bmi previous latest;
              PatientDetail.a1c_change := change a1c previous latest;
              PatientDetail.weight_percentage_change :=
                percentage_change weight previous latest |}
  | _ => None
  end.

End DerivedMetrics.

(** ** Vocabulary of the statements *)

Module Props.
Import JS.

(** [t] occurs in [s] as a contiguous run of characters. *)
Definition substring (t s : string) : Prop :=
  exists before after, s = before +:+ t +:+ after.

Fixpoint chars (s : string) : list ascii :=
  match s with
  | EmptyString => []
  | String c r => c :: chars r
  end.

Definition whitespace_only (s : string) : Prop :=
  Forall (fun c => is_space c = true) (chars s).

(** [kept] is [l] with exactly the elements that satisfy [P], in order
    and with their multiplicity. *)
Inductive retains {A} (P : A -> Prop) : list A -> list A -> Prop :=
| retains_nil : retains P [] []
| retains_keep x l kept :
    P x -> retains P l kept -> retains P (x :: l) (x :: kept)
| retains_drop x l kept :
    ~ P x -> retains P l kept -> retains P (x :: l) kept.

Definition is_digit (c : ascii) : bool :=
  let n := nat_of_ascii c in (48 <=? n)%nat && (n <=? 57)%nat.

Definition digits (width : nat) (s : string) : Prop :=
  String.length s = width /\ Forall (fun c => is_digit c = true) (chars s).

(** The value of a date control: [YYYY-MM-DD]. *)
Definition date_input (year month day : string) : string :=
  year +:+ "-" +:+ month +:+ "-" +:+ day.

(** The date format of the API: [MM/DD/YYYY]. *)
Definition api_date (year month day : string) : string :=
  month +:+ "/" +:+ day +:+ "/" +:+ year.

(** The search criterion of the patient list. *)
Definition search_hit (query : string) (p : PatientRecords.Patient) : Prop :=
  let term := toLowerCase (trim query) in
  substring term (toLowerCase (PatientRecords.name p))
  \/ substring term (toLowerCase (PatientRecords.gender p))
  \/ substring term (toLowerCase (PatientRecords.contact p))
  \/ substring term (pretty (PatientRecords.age p)).

(** [tenths] / 10 is |p| rounded to one decimal place. *)
Definition nearest_tenths (p : Q) (tenths : Z) : Prop :=
  0 <= tenths /\ (Qabs (inject_Z tenths / 10 - Qabs p) <= 1 # 20)%Q.

Definition one_decimal (tenths : Z) : string :=
  pretty (tenths / 10) +:+ "." +:+ pretty (tenths mod 10).

(** [text] is [p] rounded to one decimal place, with the sign of [p]. *)
Definition rounded_to_one_decimal (p : Q) (text : string) : Prop :=
  exists tenths,
    nearest_tenths p tenths
    /\ ((p < 0)%Q -> text = "-" +:+ one_decimal tenths)
    /\ ((0 <= p)%Q -> text = one_decimal tenths).

(** [text] is the percentage [p] to one decimal place with a percent
    sign, and a plus sign in front when [p] is positive. *)
Definition signed_percentage (p : Q) (text : string) : Prop :=
  exists rounded,
    rounded_to_one_decimal p rounded
    /\ ((0 < p)%Q -> text = "+" +:+ rounded +:+ "%")
    /\ (~ (0 < p)%Q -> text = rounded +:+ "%").

(** A goals record over exactly the thirteen goal keys, each flag 0 or 1;
    given as its entries, in any order. *)
Definition goal_flags (entries : list (string * json)) : Prop :=
  entries.*1 ≡ₚ EditPatientForm.goal_keys
  /\ Forall (fun kv => kv.2 = JNumber 0 \/ kv.2 = JNumber 1) entries.

End Props.

(** ** Sample data *)

Module Samples.
Import JS.

(** A 404 answer whose JSON body carries the server's message. *)
Definition not_found : Api.Response :=
  {| Api.ok := false;
     Api.status := 404;
     Api.payload := Some (JObject [("error", JString "Patient not found")]) |}.

Definition weighed (date : string) (pounds : Z) : DerivedMetrics.Visit :=
  {| DerivedMetrics.visit_date := date;
     DerivedMetrics.systolic := None;
     DerivedMetrics.diastolic := None;
     DerivedMetrics.cholesterol := None;
     DerivedMetrics.glucose := None;
     DerivedMetrics.weight := Some pounds;
     DerivedMetrics.bmi := None;
     DerivedMetrics.a1c := None |}.

(** A visit form with every control left blank. *)
Definition blank_page : string -> string := fun _ => EmptyString.
Definition blank_form : string -> option string := fun _ => Some EmptyString.
Definition no_number : string -> number := fun _ => None.

Definition all_flags (v : Q) : list (string * json) :=
  (fun k => (k, JNumber v)) <$> EditPatientForm.goal_keys.

Definition sarah : PatientRecords.Patient :=
  {| PatientRecords.id := "SAMPLE1";
     PatientRecords.name := "Sarah Johnson";
     PatientRecords.age := 42;
     PatientRecords.gender := "Female";
     PatientRecords.lastVisit := "2023-06-15";
     PatientRecords.nextAppointment := "2023-08-20";
     PatientRecords.contact := "(555) 123-4567" |}.

Definition second_page : PatientRecords.State :=
  {| PatientRecords.sortField := "name";
     PatientRecords.sortDirection := "asc";
     PatientRecords.searchQuery := EmptyString;
     PatientRecords.selectedPatient := None;
     PatientRecords.isDeleteModalOpen := false;
     PatientRecords.toastMessage := None;
     PatientRecords.patients := [sarah];
     PatientRecords.loading := false;
     PatientRecords.error := None;
     PatientRecords.pagination :=
       {| PatientRecords.total := 101; PatientRecords.page := 2;
          PatientRecords.limit := 100; PatientRecords.pages := 2 |} |}.

Definition empty_page : PatientRecords.PatientsPage :=
  {| PatientRecords.data_patients := [];
     PatientRecords.data_pagination :=
       {| PatientRecords.total := 100; PatientRecords.page := 1;
          PatientRecords.limit := 100; PatientRecords.pages := 1 |} |}.

End Samples.

(** ** Goal check boxes: [toggleGoal] of the edit, visit and intake forms *)

Module GoalSelection.
Import JS.

(** [prev.includes(goal)] *)
Definition array_includes (prev : list string) (goal : string) : bool :=
  existsb (String.eqb goal) prev.

(** [toggleGoal]: the same function in EditPatientForm, in both NewVisitForm
    revisions and in NewPatientForm. *)
Definition toggleGoal (prev : list string) (goal : string) : list string :=
  if array_includes prev goal
  then List.filter (fun g => negb (String.eqb g goal)) prev
  else prev ++ [goal].

End GoalSelection.

(** ** components/patients/NewPatientForm (src/unnamed/part_004) *)

Module NewPatientForm.
Import JS.

(** Goal mapping between display names and API keys. A property read
    [GOAL_MAPPING[name]] is modelled on the object's own properties. *)
Definition GOAL_MAPPING : list (string * string) :=
  [ ("INCREASED DAILY FRUIT/ VEGETABLE PORTIONS", "increased_fruit_veg");
    ("INCREASE DAILY WATER INTAKE", "increased_water");
    ("INCREASED WEEKLY EXERCISE", "increased_exercise");
    ("CUT TV VIEWING TO < 2 HOURS/ DAY", "cut_tv_viewing");
    ("EAT BREAKFAST DAILY", "eat_breakfast");
    ("LIMIT DAILY ALCOHOL CONSUMPTION WOMAN =1, MAN=2", "limit_alcohol");
    ("DO NOT EAT AT LEAST 3 HOURS BEFORE GOING TO BED", "no_late_eating");
    ("EATS MORE WHOLE WHEAT/ GRAINS DAILY", "more_whole_grains");
    ("EATS LESS FRIED FOODS OR MEATS", "less_fried_foods");
    ("DRINKS LOW FAT OR SKIM MILK", "low_fat_milk");
    ("LOWERED SALT INTAKE", "lower_salt");
    ("RECEIVE AN ANNUAL CHECK-UP", "annual_checkup");
    ("QUIT SMOKING", "quit_smoking") ].

Definition HEALTH_GOALS : list string := GOAL_MAPPING.*1.

(** [formattedDate] of [handleSubmit]. *)
Definition formattedDate (dateStr : option string) : string :=
  match dateStr with
  | None => EmptyString
  | Some s =>
      if negb (truthy_string s) then EmptyString
      else
        let parts := split "-" s in
        interpolate (parts !! 1%nat) +:+ "/" +:+
        interpolate (parts !! 2%nat) +:+ "/" +:+
        interpolate (parts !! 0%nat)
  end.

(** The [goals] object built by [handleSubmit]. *)
Definition goals (selectedGoals : list string) : gmap string json :=
  let zeroed :=
    foldl (fun goals apiKey => <[apiKey := JNumber 0]> goals)
          ∅ (GOAL_MAPPING.*2) in
  foldl (fun goals displayGoal =>
           match assoc displayGoal GOAL_MAPPING with
           | Some apiKey =>
               if truthy_string apiKey
               then <[apiKey := JNumber 1]> goals
               else goals
           | None => goals
           end)
        zeroed selectedGoals.

Record apiData := {
  first_name : option string;
  last_name : option string;
  gender : option string;
  age : number;
  race : option string;
  primary_lang : option string;
  insurance : option string;
  phone : option string;
  zipcode : option string;
  height : option string;
  birthdate : string;
  first_visit_date : string;
  api_goals : gmap string json
}.

Definition handleSubmit_apiData (Number : option string -> number)
    (form : string -> option string) (selectedGoals : list string) : apiData :=
  {| first_name := form "firstName";
     last_name := form "lastName";
     gender := form "gender";
     age := Number (form "age");
     race := form "race";
     primary_lang := form "primaryLanguage";
     insurance := form "insurance";
     phone := form "phone";
     zipcode := form "zipcode";
     height := form "height";
     birthdate := formattedDate (form "birthdate");
     first_visit_date := formattedDate (form "firstVisitDate");
     api_goals := goals selectedGoals |}.

End NewPatientForm.

(** ** Goals shown and preselected from [latest_goals] *)

Module LatestGoals.
Import JS.

(** The effect of both NewVisitForm revisions that preselects the goals of
    the latest visit: [selectedGoals] is replaced when [latestGoals] is
    there and kept otherwise. [latestGoals] is given by its
    [Object.entries]. *)
Definition activeGoals (entries : list (string * json)) : list string :=
  let active :=
    List.filter (fun '(key, value) =>
                   if EditPatientForm.non_goal_property key then false
                   else EditPatientForm.is_one value)
                entries in
  let labels :=
    List.map (fun '(key, _) =>
                default EmptyString (assoc key NewVisitForm.GOALS_MAPPING))
             active in
  List.filter truthy_string labels.

Definition onLatestGoals (selectedGoals : list string)
    (latestGoals : option (list (string * json))) : list string :=
  match latestGoals with
  | Some entries => activeGoals entries
  | None => selectedGoals
  end.

(** [goalsMapping] of [getActiveGoals] in PatientDetail. *)
Definition goalsMapping : list (string * string) :=
  [ ("increased_fruit_veg", "Increase Fruit & Vegetable Intake");
    ("increased_water", "Increase Water Intake");
    ("increased_exercise", "Increase Physical Activity");
    ("cut_tv_viewing", "Reduce Screen Time");
    ("eat_breakfast", "Eat Breakfast Daily");
    ("limit_alcohol", "Limit Alcohol Consumption");
    ("no_late_eating", "Avoid Late Night Eating");
    ("more_whole_grains", "Eat More Whole Grains");
    ("less_fried_foods", "Reduce Fried Food Consumption");
    ("low_fat_milk", "Use Low-Fat Dairy Products");
    ("lower_salt", "Reduce Salt Intake");
    ("annual_checkup", "Schedule Annual Check-up");
    ("quit_smoking", "Quit Smoking") ].

(** [getActiveGoals] of PatientDetail: the loop pushes the label of every
    entry that passes the test. [latest_goals] is [None] when the patient
    data or its [latest_goals] member is null. *)
Definition getActiveGoals (latest_goals : option (list (string * json)))
  : list string :=
  match latest_goals with
  | None => []
  | Some entries =>
      foldl (fun goals '(key, value) =>
               if negb (String.eqb key "client_id")
                  && negb (String.eqb key "visit_date")
                  && EditPatientForm.is_one value
                  && truthy_text (assoc key goalsMapping)
               then goals ++ [default EmptyString (assoc key goalsMapping)]
               else goals)
            [] entries
  end.

End LatestGoals.

(** ** PatientRecords: sorting, paging and the list after an intake *)

Module RecordsNavigation.
Import JS PatientRecords.



(** [handleSearch]: typing in the search box. *)
Definition handleSearch (st : State) (value : string) : State :=
  {| sortField := sortField st;
     sortDirection := sortDirection st;
     searchQuery := value;
     selectedPatient := selectedPatient st;
     isDeleteModalOpen := isDeleteModalOpen st;
     toastMessage := toastMessage st;
     patients := patients st;
     loading := loading st;
     error := error st;
     pagination := pagination st |}.

Definition with_page_number (st : State) (p : Z) : State :=
  {| sortField := sortField st;
     sortDirection := sortDirection st;
     searchQuery := searchQuery st;
     selectedPatient := selectedPatient st;
     isDeleteModalOpen := isDeleteModalOpen st;
     toastMessage := toastMessage st;
     patients := patients st;
     loading := loading st;
     error := error st;
     pagination := {| total := total (pagination st);
                      page := p;
                      limit := limit (pagination st);
                      pages := pages (pagination st) |} |}.

(** The footer with the two paging buttons is rendered when the list is
    neither loading nor in error and shows at least one row. *)
Definition footer_shown (st : State) : bool :=
  negb (loading st) && negb (truthy_text (error st))
  && (0 <? length (filteredAndSortedPatients st))%nat.

Definition previous_disabled (st : State) : bool :=
  (page (pagination st) <=? 1) || loading st.

Definition next_disabled (st : State) : bool :=
  (pages (pagination st) <=? page (pagination st)) || loading st.

(** A click on Previous or Next; [None] when the button is not there or is
    disabled, so that no click reaches the handler. *)
Definition click_previous (st : State) : option State :=
  if footer_shown st && negb (previous_disabled st)
  then Some (with_page_number st (page (pagination st) - 1))
  else None.

Definition click_next (st : State) : option State :=
  if footer_shown st && negb (next_disabled st)
  then Some (with_page_number st (page (pagination st) + 1))
  else None.


End RecordsNavigation.

(** ** PatientDetail: the handlers of the page *)

Module PatientDetailHandlers.
Import JS.

Record State := {
  isNewVisitFormOpen : bool;
  isEditFormOpen : bool;
  toastMessage : option PatientRecords.Toast;
  isVisitDetailsOpen : bool;
  selectedVisit : option json;
  patientData : option json;
  loading : bool;
  error : option string
}.

Inductive call :=
| UpdatePatient (clientId : string)
| GetPatientById (clientId : string)
| GetPatientVisits (clientId : string).

(** [a === b] on two values read from parsed JSON: arrays and objects are
    compared by identity, and two values that come from different places
    are never the same object. *)
Definition strict_equal (a b : option json) : bool :=
  match a, b with
  | None, None => true
  | Some JNull, Some JNull => true
  | Some (JBool x), Some (JBool y) => Bool.eqb x y
  | Some (JNumber x), Some (JNumber y) => Qeq_bool x y
  | Some (JString x), Some (JString y) => String.eqb x y
  | _, _ => false
  end.

(** [allVisits.find((v) => v.id === visit.id)] on the elements of an
    array. *)
Fixpoint find_visit (visit : json) (elements : list json)
  : completion (option json) :=
  match elements with
  | [] => Normal None
  | v :: rest =>
      vid ← get_prop v "id";
      wanted ← get_prop visit "id";
      if strict_equal vid wanted then Normal (Some v)
      else find_visit visit rest
  end.

(** [allVisits.find(...)] on whatever the API returned. *)
Definition array_find (allVisits visit : json) : completion (option json) :=
  match allVisits with
  | JArray elements => find_visit visit elements
  | JNull => Throw (TypeError "Cannot read properties of null")
  | _ => Throw (TypeError "allVisits.find is not a function")
  end.

Definition show_visit (st : State) (visit : json) : State :=
  {| isNewVisitFormOpen := isNewVisitFormOpen st;
     isEditFormOpen := isEditFormOpen st;
     toastMessage := toastMessage st;
     isVisitDetailsOpen := true;
     selectedVisit := Some visit;
     patientData := patientData st;
     loading := loading st;
     error := error st |}.

Section Handlers.
Variable getPatientVisits : string -> completion json.
Variable getPatientById : string -> completion json.
Variable updatePatient : string -> EditPatientForm.data -> completion json.

(** [handleViewVisitDetails] *)
Definition handleViewVisitDetails (clientId : option string) (st : State)
    (visit : json) : State :=
  if negb (truthy_text clientId) then show_visit st visit
  else
    let found :=
      allVisits ← getPatientVisits (default EmptyString clientId);
      array_find allVisits visit in
    match found with
    | Normal fullVisitData =>
        if truthy fullVisitData
        then show_visit st (default JNull fullVisitData)
        else show_visit st visit
    | Throw _ => show_visit st visit
    end.

Definition with_toast (st : State) (t : PatientRecords.Toast) : State :=
  {| isNewVisitFormOpen := isNewVisitFormOpen st;
     isEditFormOpen := isEditFormOpen st;
     toastMessage := Some t;
     isVisitDetailsOpen := isVisitDetailsOpen st;
     selectedVisit := selectedVisit st;
     patientData := patientData st;
     loading := loading st;
     error := error st |}.

Definition after_refetch (st : State) (forms : bool * bool)
    (t : PatientRecords.Toast) (data : option json) : State :=
  {| isNewVisitFormOpen := forms.1;
     isEditFormOpen := forms.2;
     toastMessage := Some t;
     isVisitDetailsOpen := isVisitDetailsOpen st;
     selectedVisit := selectedVisit st;
     patientData := data;
     loading := false;
     error := error st |}.

(** [handleEditPatient]: the state after the handler has run and the calls
    it made. *)
Definition handleEditPatient (clientId : option string) (st : State)
    (data : EditPatientForm.data) : State * list call :=
  if negb (truthy_text clientId) then (st, [])
  else
    let id := default EmptyString clientId in
    match updatePatient id data with
    | Throw err =>
        (with_toast st
           {| PatientRecords.toast_message := message err;
              PatientRecords.toast_type := "error" |},
         [UpdatePatient id])
    | Normal _ =>
        let done :=
          {| PatientRecords.toast_message := "Patient updated successfully";
             PatientRecords.toast_type := "success" |} in
        let forms := (isNewVisitFormOpen st, false) in
        match getPatientById id with
        | Normal updatedData =>
            (after_refetch st forms done (Some updatedData),
             [UpdatePatient id; GetPatientById id])
        | Throw _ =>
            (after_refetch st forms done (patientData st),
             [UpdatePatient id; GetPatientById id])
        end
    end.

(** [handleNewVisit]: the page after NewVisitForm has created a visit. *)
Definition handleNewVisit (clientId : option string) (st : State)
  : State * list call :=
  if negb (truthy_text clientId) then (st, [])
  else
    let id := default EmptyString clientId in
    let done :=
      {| PatientRecords.toast_message := "Visit added successfully";
         PatientRecords.toast_type := "success" |} in
    let forms := (false, isEditFormOpen st) in
    match getPatientById id with
    | Normal updatedData =>
        (after_refetch st forms done (Some updatedData), [GetPatientById id])
    | Throw _ =>
        (after_refetch st forms done (patientData st), [GetPatientById id])
    end.

End Handlers.
End PatientDetailHandlers.

(** ** services/api: [reportsApi.exportReport] (src/unnamed/part_002) *)

Module ReportsApi.
Import JS.

Definition export_url (startDate endDate format : string) : string :=
  Api.API_BASE_URL +:+ "/reports/export?start_date=" +:+ startDate
  +:+ "&end_date=" +:+ endDate +:+ "&format=" +:+ format.

Definition accept (format : string) : string :=
  if String.eqb format "pdf" then "application/pdf"
  else "application/vnd.openxmlformats-officedocument.spreadsheetml.sheet".

(** [exportReport]: the raw response is returned for the download. *)
Definition exportReport
    (fetch : string -> Api.RequestInit -> completion Api.Response)
    (ToString : json -> string) (startDate endDate format : string)
  : completion Api.Response :=
  response ← fetch (export_url startDate endDate format)
    {| Api.method := Some "GET";
       Api.headers := [("Accept", accept format)];
       Api.body := None |};
  if negb (Api.ok response) then
    try_catch
      (errorData ← Api.response_json response;
       err ← get_prop errorData "error";
       Throw (Api.new_Error ToString
                (if truthy err then default JNull err
                 else JString (Api.generic_message response))))
      (fun e => Throw (Error (Api.generic_message response)))
  else Normal response.

End ReportsApi.

(** ** static/home.js: the intake form of the legacy home page *)

Module Home.
Import JS.

Record formData := {
  first_name : string;
  last_name : string;
  age : string;
  birthdate : string;
  first_visit_date : string;
  gender : string;
  race : string;
  primary_lang : string;
  phone : string;
  zipcode : string;
  insurance : string
}.

Definition between (lo hi c : ascii) : bool :=
  (nat_of_ascii lo <=? nat_of_ascii c)%nat
  && (nat_of_ascii c <=? nat_of_ascii hi)%nat.

(** [\d] *)
Definition digit (c : ascii) : bool := between "0" "9" c.

(** [(0[1-9]|1[0-2])] *)
Definition month_part (a b : ascii) : bool :=
  (Ascii.eqb a "0" && between "1" "9" b)
  || (Ascii.eqb a "1" && between "0" "2" b).

(** [([0-2][0-9]|3[01])] *)
Definition day_part (a b : ascii) : bool :=
  (between "0" "2" a && between "0" "9" b)
  || (Ascii.eqb a "3" && between "0" "1" b).

(** [dateRegex.test(s)] for
    [/^(0[1-9]|1[0-2])\/([0-2][0-9]|3[01])\/\d{4}$/]. *)
Definition dateRegex_test (s : string) : bool :=
  match s with
  | String m1 (String m2 (String s1 (String d1 (String d2 (String s2
      (String y1 (String y2 (String y3 (String y4 EmptyString))))))))) =>
      month_part m1 m2 && Ascii.eqb s1 "/" && day_part d1 d2
      && Ascii.eqb s2 "/" && digit y1 && digit y2 && digit y3 && digit y4
  | _ => false
  end.

Inductive outcome :=
| Alert (text : string)
| Post (body : formData).

(** The submit listener up to the request: the form is posted only when
    the required controls are filled and both dates pass [dateRegex].
    [value] is [document.getElementById(id).value]. *)
Definition on_submit (value : string -> string) : outcome :=
  let formData :=
    {| first_name := value "firstName";
       last_name := value "lastName";
       age := value "age";
       birthdate := value "dob";
       first_visit_date := value "firstVisitDate";
       gender := value "gender";
       race := value "race";
       primary_lang := value "primaryLanguage";
       phone := value "phone";
       zipcode := value "zip";
       insurance := value "insurance" |} in
  if negb (truthy_string (first_name formData))
     || negb (truthy_string (last_name formData))
     || negb (truthy_string (age formData))
     || negb (truthy_string (birthdate formData))
     || negb (truthy_string (first_visit_date formData))
  then Alert "Please fill in all required fields!"
  else if negb (dateRegex_test (birthdate formData))
  then Alert "Please enter a valid birthdate in MM/DD/YYYY format"
  else if negb (dateRegex_test (first_visit_date formData))
  then Alert "Please enter a valid first visit date in MM/DD/YYYY format"
  else Post formData.

End Home.

(** ** Dates as the legacy intake form accepts them *)

Module Calendar.
Import JS Props.

Definition digit_value (c : ascii) : nat := nat_of_ascii c - 48.

(** The number written by a text of decimal digits. *)
Definition decimal (s : string) : nat :=
  foldl (fun acc c => 10 * acc + digit_value c)%nat 0%nat (chars s).

(** [s] reads MM/DD/YYYY with the month from 01 to 12 and the day from 00
    to 31. *)
Definition month_day_year (s : string) : Prop :=
  exists year month day,
    s = api_date year month day
    /\ digits 4 year /\ digits 2 month /\ digits 2 day
    /\ (1 <= decimal month <= 12)%nat
    /\ (decimal day <= 31)%nat.

(** The controls the submit listener requires. *)
Definition required : list string :=
  ["firstName"; "lastName"; "age"; "dob"; "firstVisitDate"].

End Calendar.

(** ** PatientRecords: loading a page and opening the edit form *)

Module RecordsLoading.
Import JS PatientRecords.

(** The effect [fetchPatients], run for the page and the page size held in
    the state. [development] is [process.env.NODE_ENV === "development"]. *)
Definition fetchPatients (development : bool)
    (getPatients : Z -> Z -> completion PatientsPage) (st : State) : State :=
  match getPatients (page (pagination st)) (limit (pagination st)) with
  | Normal data =>
      {| sortField := sortField st;
         sortDirection := sortDirection st;
         searchQuery := searchQuery st;
         selectedPatient := selectedPatient st;
         isDeleteModalOpen := isDeleteModalOpen st;
         toastMessage := toastMessage st;
         patients := transform <$> data_patients data;
         loading := false;
         error := None;
         pagination := data_pagination data |}
  | Throw err =>
      {| sortField := sortField st;
         sortDirection := sortDirection st;
         searchQuery := searchQuery st;
         selectedPatient := selectedPatient st;
         isDeleteModalOpen := isDeleteModalOpen st;
         toastMessage := toastMessage st;
         patients := if development then [Samples.sarah] else patients st;
         loading := false;
         error := Some (message err);
         pagination := pagination st |}
  end.

(** [parts.join(sep)] *)
Fixpoint join (sep : string) (parts : list string) : string :=
  match parts with
  | [] => EmptyString
  | part :: rest =>
      match rest with
      | [] => part
      | _ :: _ => part +:+ sep +:+ join sep rest
      end
  end.

(** [first_name] and [last_name] as [handleEditClick] derives them from the
    name of the row: [name.split(" ")[0]] and
    [name.split(" ").slice(1).join(" ")]. *)
Definition handleEditClick_first_name (name : string) : option string :=
  split " " name !! 0%nat.

Definition handleEditClick_last_name (name : string) : string :=
  join " " (drop 1 (split " " name)).

End RecordsLoading.

Import JS Props.

(** ** [fetchApi] *)

Section FetchApiFacts.
Variable fetch : string -> Api.RequestInit -> completion Api.Response.
Variable ToString : json -> string.

(** Whatever is thrown inside the [try] block is caught by its own [catch]
    arm, so a response that is not OK always ends in the generic error. *)
Lemma fetchApi_not_ok endpoint options init r :
  init = {| Api.method := Api.method options;
            Api.headers :=
              ("Content-Type", "application/json") :: Api.headers options;
            Api.body := Api.body options |} ->
  fetch (Api.API_BASE_URL +:+ endpoint) init = Normal r ->
  Api.ok r = false ->
  Api.fetchApi fetch ToString endpoint options
  = Throw (Error ("API error: " +:+ pretty (Api.status r))).
Proof.
  intros -> Hfetch Hok. unfold Api.fetchApi.
  rewrite Hfetch. cbn. rewrite Hok. cbn.
  unfold Api.generic_message, try_catch.
  destruct (Api.response_json r) as [errorData|e]; cbn; [|done].
  destruct (get_prop errorData "error") as [err|e]; cbn; done.
Qed.

(** An OK response with a JSON body is the result of the call. *)
Lemma fetchApi_ok endpoint options init r v :
  init = {| Api.method := Api.method options;
            Api.headers :=
              ("Content-Type", "application/json") :: Api.headers options;
            Api.body := Api.body options |} ->
  fetch (Api.API_BASE_URL +:+ endpoint) init = Normal r ->
  Api.ok r = true ->
  Api.payload r = Some v ->
  Api.fetchApi fetch ToString endpoint options = Normal v.
Proof.
  intros -> Hfetch Hok Hpayload. unfold Api.fetchApi.
  rewrite Hfetch. cbn. rewrite Hok. cbn.
  unfold Api.response_json. by rewrite Hpayload.
Qed.
End FetchApiFacts.

(** The legacy page reads the same kind of answer outside any inner [try]
    and does show the server's message. *)
Lemma legacy_page_shows_server_message (ToString : json -> string) :
  Profile.addPatientVisit_feedback ToString (Normal Samples.not_found)
  = Profile.Alert "An error occurred: Patient not found".
Proof. reflexivity. Qed.

(** C1. A non-OK response whose JSON body has an [error] field with message
    m should make [fetchApi] throw an Error with message m. On the code the
    answer 404 with body [{"error": "Patient not found"}] ends in the
    generic message instead: the [throw] that carries the server's message
    sits inside the [try] block and is caught by its [catch] arm. *)
Theorem C1_fetchApi_drops_server_message :
  forall ToString endpoint options,
    Api.fetchApi (fun _ _ => Normal Samples.not_found) ToString endpoint options
    = Throw (Error "API error: 404")
    /\ Api.fetchApi (fun _ _ => Normal Samples.not_found) ToString
         endpoint options
       <> Throw (Error "Patient not found").
Proof.
  intros ToString endpoint options.
  rewrite (fetchApi_not_ok _ ToString endpoint options _ Samples.not_found
             eq_refl eq_refl eq_refl).
  split; [reflexivity | discriminate].
Qed.

(** ** Deltas between the two most recent visits *)

Lemma latest_changes_short (history : list DerivedMetrics.Visit) :
  (length history < 2)%nat -> DerivedMetrics.latest_changes history = None.
Proof.
  intros Hlen. unfold DerivedMetrics.latest_changes.
  destruct history as [|v [|w rest]]; [done | done | cbn in Hlen; lia].
Qed.

Lemma latest_changes_two older previous latest :
  DerivedMetrics.latest_changes (older ++ [previous; latest])
  = Some {| PatientDetail.systolic_change :=
              DerivedMetrics.change DerivedMetrics.systolic previous latest;
            PatientDetail.diastolic_change :=
              DerivedMetrics.change DerivedMetrics.diastolic previous latest;
            PatientDetail.cholesterol_change :=
              DerivedMetrics.change DerivedMetrics.cholesterol previous latest;
            PatientDetail.glucose_change :=
              DerivedMetrics.change DerivedMetrics.glucose previous latest;
            PatientDetail.weight_change :=
              DerivedMetrics.change DerivedMetrics.weight previous latest;
            PatientDetail.bmi_change :=
              DerivedMetrics.change DerivedMetrics.bmi previous latest;
            PatientDetail.a1c_change :=
              DerivedMetrics.change DerivedMetrics.a1c previous latest;
            PatientDetail.weight_percentage_change :=
              DerivedMetrics.percentage_change DerivedMetrics.weight
                previous latest |}.
Proof.
  unfold DerivedMetrics.latest_changes.
  rewrite reverse_app. reflexivity.
Qed.

(** C2. For every visit history with fewer than two visits the delta
    computation yields the no-data result: [latest_changes] is null, and the
    patient-detail view then renders no Recent Changes panel. The
    computation is a total function, so no error and no division by zero can
    occur on the way. *)
Theorem C2_fewer_than_two_visits_no_data (history : list DerivedMetrics.Visit) :
  (length history < 2)%nat ->
  DerivedMetrics.latest_changes history = None
  /\ PatientDetail.recent_changes (DerivedMetrics.latest_changes history) = [].
Proof.
  intros Hlen. rewrite (latest_changes_short history Hlen). split; reflexivity.
Qed.

Lemma C2_single_visit_witness :
  (length [Samples.weighed "2024-01-10" 200] < 2)%nat
  /\ DerivedMetrics.latest_changes [Samples.weighed "2024-01-10" 200] = None
  /\ PatientDetail.recent_changes
       (DerivedMetrics.latest_changes [Samples.weighed "2024-01-10" 200]) = [].
Proof.
  split; [cbn; lia |].
  apply (C2_fewer_than_two_visits_no_data [Samples.weighed "2024-01-10" 200]).
  cbn; lia.
Defined.

Lemma append_empty_r (s : string) : s +:+ EmptyString = s.
Proof.
  induction s as [|c s IH]; [done |].
  change (String c (s +:+ EmptyString) = String c s). by f_equal.
Qed.

(** The weight line reads: the change, the unit, and the percentage in
    parentheses. *)
Lemma weight_row_text (c : PatientDetail.LatestChanges) change pct :
  PatientDetail.weight_change c = Some change ->
  truthy_string change = true ->
  PatientDetail.weight_percentage_change c = Some pct ->
  truthy_string pct = true ->
  PatientDetail.textContent <$> PatientDetail.weight_row c
  = ["Weight" +:+ change +:+ " lbs" +:+ "(" +:+ pct +:+ ")"].
Proof.
  intros Hw Hwt Hp Hpt. unfold PatientDetail.weight_row.
  rewrite Hw, Hp. cbn. rewrite Hwt, Hpt. cbn.
  rewrite !append_empty_r. reflexivity.
Qed.

(** ** Blank measurements on the visit-creation paths *)

Lemma react_measured_blank Number form name :
  form name = Some EmptyString -> NewVisitForm.measured Number form name = None.
Proof. intros H. unfold NewVisitForm.measured. by rewrite H. Qed.

Lemma react_goal_edit_measured_blank Number form name :
  form name = Some EmptyString ->
  NewVisitFormGoalEdit.measured Number form name = None.
Proof. intros H. unfold NewVisitFormGoalEdit.measured. by rewrite H. Qed.

Lemma legacy_or_default_blank fallback :
  Profile.or_default EmptyString fallback = fallback.
Proof. reflexivity. Qed.

(** C8 does not hold on every path: on the legacy profile page a blank
    systolic control is sent as the number 0. *)
Lemma C8_legacy_page_sends_zero :
  ~ (forall s m,
        VisitCreation.left_blank s m -> VisitCreation.transmitted s m = JNull).
Proof.
  intros H.
  specialize (H (VisitCreation.SubmitLegacy Samples.blank_page)
                VisitCreation.Systolic eq_refl).
  vm_compute in H. discriminate H.
Qed.

(** C8, amended. On both React visit forms a clinical measurement left blank
    is transmitted as null; the legacy profile page substitutes the number 0
    for a blank measurement. *)
Theorem C8_blank_measurement_by_path (s : VisitCreation.submission)
    (m : VisitCreation.measurement) :
  VisitCreation.left_blank s m ->
  match s with
  | VisitCreation.SubmitLegacy _ => VisitCreation.transmitted s m = JNumber 0
  | _ => VisitCreation.transmitted s m = JNull
  end.
Proof.
  unfold VisitCreation.left_blank.
  destruct s as [Number now form clientId selected
                |Number now form clientId editing selected initial
                |value]; cbn; intros Hblank.
  - destruct m; cbn; by rewrite (react_measured_blank _ _ _ Hblank).
  - destruct m; cbn; by rewrite (react_goal_edit_measured_blank _ _ _ Hblank).
  - injection Hblank as Hblank.
    destruct m; cbn in *; rewrite Hblank; apply legacy_or_default_blank.
Qed.

Lemma C8_blank_react_form_witness :
  VisitCreation.transmitted
    (VisitCreation.SubmitReact Samples.no_number "09:30 AM" Samples.blank_form
       "SAMPLE1" [])
    VisitCreation.Weight = JNull.
Proof.
  apply (C8_blank_measurement_by_path
           (VisitCreation.SubmitReact Samples.no_number "09:30 AM"
              Samples.blank_form "SAMPLE1" [])
           VisitCreation.Weight).
  reflexivity.
Defined.

(** ** Dashboard formatters *)

(** C9. [getTrend] maps a null change_percentage to up and maps zero to up;
    only a strictly negative change_percentage yields down. *)
Theorem C9_getTrend_directions :
  Dashboard.getTrend None = "up"
  /\ Dashboard.getTrend (Some 0%Q) = "up"
  /\ (forall percentage,
        Dashboard.getTrend percentage = "down"
        <-> exists p, percentage = Some p /\ (p < 0)%Q)
  /\ (forall percentage,
        Dashboard.getTrend percentage = "up"
        <-> percentage = None \/ exists p, percentage = Some p /\ (0 <= p)%Q).
Proof.
  split; [reflexivity |]. split; [reflexivity |].
  split; intros [p|]; cbn.
  - destruct (Qle_bool 0 p) eqn:Hle.
    + apply Qle_bool_iff in Hle. split; [discriminate |].
      intros (q & [= <-] & Hlt). exfalso. by apply (Qlt_not_le _ _ Hlt).
    + split; [| done]. intros _. exists p. split; [done |].
      apply Qnot_le_lt. intros Hle'. apply Qle_bool_iff in Hle'. congruence.
  - split; [discriminate |]. by intros (q & [=] & _).
  - destruct (Qle_bool 0 p) eqn:Hle.
    + apply Qle_bool_iff in Hle. split; [| done]. intros _. right. eauto.
    + split; [discriminate |]. intros [[=] | (q & [= <-] & Hle')].
      apply Qle_bool_iff in Hle'. congruence.
  - split; [| done]. intros _. by left.
Qed.

(** ** Strings: [split] and the date conversion *)

Lemma append_cons (c : ascii) (a b : string) :
  String c a +:+ b = String c (a +:+ b).
Proof. reflexivity. Qed.

Lemma append_empty_l (s : string) : EmptyString +:+ s = s.
Proof. reflexivity. Qed.

Lemma split_whole (sep : ascii) (s : string) :
  sep ∉ chars s -> split sep s = [s].
Proof.
  induction s as [|c s IH]; cbn; [done |].
  intros Hnot. apply not_elem_of_cons in Hnot as [Hne Hnot].
  destruct (Ascii.eqb_spec c sep) as [->|_]; [done |].
  by rewrite (IH Hnot).
Qed.

Lemma split_at_first (sep : ascii) (a rest : string) :
  sep ∉ chars a ->
  split sep (a +:+ String sep rest) = a :: split sep rest.
Proof.
  induction a as [|c a IH]; intros Hnot.
  - rewrite append_empty_l. cbn. by rewrite Ascii.eqb_refl.
  - cbn in Hnot. apply not_elem_of_cons in Hnot as [Hne Hnot].
    rewrite append_cons. cbn.
    destruct (Ascii.eqb_spec c sep) as [->|_]; [done |].
    by rewrite (IH Hnot).
Qed.

Lemma digit_not_dash (c : ascii) : is_digit c = true -> c <> "-"%char.
Proof. intros Hd ->. vm_compute in Hd. discriminate. Qed.

Lemma digits_no_dash width (s : string) :
  digits width s -> "-"%char ∉ chars s.
Proof.
  intros [_ Hall] Hin.
  rewrite Forall_forall in Hall.
  by apply (digit_not_dash _ (Hall _ Hin)).
Qed.

Lemma split_date_input year month day :
  "-"%char ∉ chars year -> "-"%char ∉ chars month -> "-"%char ∉ chars day ->
  split "-" (date_input year month day) = [year; month; day].
Proof.
  intros Hy Hm Hd. unfold date_input.
  change ("-" +:+ month +:+ "-" +:+ day)
    with (String "-" (month +:+ String "-" day)).
  rewrite (split_at_first _ _ _ Hy), (split_at_first _ _ _ Hm).
  by rewrite (split_whole _ _ Hd).
Qed.

Lemma date_input_truthy year month day :
  truthy_string (date_input year month day) = true.
Proof. unfold date_input. by destruct year. Qed.

Lemma formatDateForAPI_converts year month day :
  digits 4 year -> digits 2 month -> digits 2 day ->
  EditPatientForm.formatDateForAPI (Some (date_input year month day))
  = api_date year month day
  /\ NewVisitForm.formatDateForAPI (Some (date_input year month day))
     = api_date year month day
  /\ NewVisitFormGoalEdit.formatDateForAPI (Some (date_input year month day))
     = api_date year month day.
Proof.
  intros Hy%digits_no_dash Hm%digits_no_dash Hd%digits_no_dash.
  unfold EditPatientForm.formatDateForAPI, NewVisitForm.formatDateForAPI,
    NewVisitFormGoalEdit.formatDateForAPI.
  rewrite date_input_truthy, (split_date_input _ _ _ Hy Hm Hd).
  by repeat split.
Qed.

(** C5 does not hold in its last part: the dashboard sends the value of its
    date controls unchanged, so the request for 2024-01-10 carries
    2024-01-10 and not 01/10/2024. *)
Lemma C5_dashboard_sends_iso_date :
  ~ (forall s year month day,
        digits 4 year -> digits 2 month -> digits 2 day ->
        includes (DateBoundary.transmitted s (date_input year month day))
                 (api_date year month day) = true).
Proof.
  intros H.
  specialize (H DateBoundary.DashboardMetrics "2024" "01" "10").
  assert (digits 4 "2024" /\ digits 2 "01" /\ digits 2 "10") as (Hy & Hm & Hd)
    by (repeat split; repeat constructor).
  specialize (H Hy Hm Hd). vm_compute in H. discriminate H.
Qed.

(** C5, amended. For a date-control value YYYY-MM-DD the conversion
    [formatDateForAPI] of the edit form and of both visit forms returns
    MM/DD/YYYY with the same year, month and day, and it returns the empty
    string for null and for the empty string; so the birthdate of a patient
    update and the visit date of a new visit reach the API as MM/DD/YYYY.
    The dashboard sends the value of its date controls as it is, in the
    query string of the metrics request. *)
Theorem C5_formatDateForAPI_month_day_year (year month day : string) :
  digits 4 year -> digits 2 month -> digits 2 day ->
  (EditPatientForm.formatDateForAPI (Some (date_input year month day))
   = api_date year month day
   /\ NewVisitForm.formatDateForAPI (Some (date_input year month day))
      = api_date year month day
   /\ NewVisitFormGoalEdit.formatDateForAPI (Some (date_input year month day))
      = api_date year month day)
  /\ (EditPatientForm.formatDateForAPI None = EmptyString
      /\ EditPatientForm.formatDateForAPI (Some EmptyString) = EmptyString
      /\ NewVisitForm.formatDateForAPI None = EmptyString
      /\ NewVisitForm.formatDateForAPI (Some EmptyString) = EmptyString
      /\ NewVisitFormGoalEdit.formatDateForAPI None = EmptyString
      /\ NewVisitFormGoalEdit.formatDateForAPI (Some EmptyString)
         = EmptyString)
  /\ (forall s,
        s <> DateBoundary.DashboardMetrics ->
        DateBoundary.transmitted s (date_input year month day)
        = api_date year month day)
  /\ DateBoundary.transmitted DateBoundary.DashboardMetrics
       (date_input year month day)
     = "/dashboard/metrics?start_date=" +:+ date_input year month day
       +:+ "&end_date=" +:+ date_input year month day.
Proof.
  intros Hy Hm Hd.
  pose proof (formatDateForAPI_converts year month day Hy Hm Hd)
    as (Hedit & Hvisit & Hvisit').
  split; [done |]. split; [by repeat split |]. split.
  - intros [] Hs; [exact Hedit | exact Hvisit | exact Hvisit' | done].
  - unfold DateBoundary.transmitted, Dashboard.metrics_endpoint,
      Api.getMetrics_endpoint.
    cbn [Dashboard.onChangeStart Dashboard.onChangeEnd Dashboard.range_start
         Dashboard.range_end truthy_text interpolate default].
    by rewrite date_input_truthy.
Qed.

Lemma C5_january_tenth_witness :
  EditPatientForm.formatDateForAPI (Some "2024-01-10") = "01/10/2024"
  /\ NewVisitForm.formatDateForAPI (Some "2024-01-10") = "01/10/2024"
  /\ NewVisitFormGoalEdit.formatDateForAPI (Some "2024-01-10") = "01/10/2024".
Proof.
  apply (C5_formatDateForAPI_month_day_year "2024" "01" "10");
    (split; [reflexivity | repeat constructor]).
Defined.

(** ** Strings: [includes], [trim], [toLowerCase] *)

Lemma startsWith_spec (s t : string) :
  startsWith s t = true <-> exists after, s = t +:+ after.
Proof.
  revert s. induction t as [|c t IH]; intros s.
  - destruct s; (split; [intros _; eexists; reflexivity | done]).
  - destruct s as [|d s]; cbn.
    + split; [done |]. by intros [after Heq].
    + rewrite andb_true_iff, IH. split.
      * intros [Hcd [after ->]]. apply Ascii.eqb_eq in Hcd as ->. by exists after.
      * intros [after Heq]. rewrite append_cons in Heq.
        injection Heq as -> ->. split; [apply Ascii.eqb_refl | by exists after].
Qed.

Lemma includes_spec (s t : string) :
  includes s t = true <-> substring t s.
Proof.
  unfold substring. induction s as [|d s IH].
  - cbn [includes]. rewrite orb_false_r, startsWith_spec. split.
    + intros [after Heq]. by exists EmptyString, after.
    + intros ([|x before] & after & Heq); [by exists after | done].
  - cbn [includes]. rewrite orb_true_iff, IH, startsWith_spec. split.
    + intros [[after Heq] | (before & after & ->)].
      * by exists EmptyString, after.
      * by exists (String d before), after.
    + intros ([|x before] & after & Heq).
      * left. by exists after.
      * rewrite append_cons in Heq. injection Heq as -> ->.
        right. by exists before, after.
Qed.

Lemma substring_empty (s : string) : substring EmptyString s.
Proof. by exists EmptyString, s. Qed.

Lemma lower_char_space (c : ascii) : is_space (lower_char c) = is_space c.
Proof. by destruct c as [[] [] [] [] [] [] [] []]. Qed.

Lemma toLowerCase_empty (s : string) :
  is_empty (toLowerCase s) = is_empty s.
Proof. by destruct s. Qed.

Lemma trimStart_toLowerCase (s : string) :
  trimStart (toLowerCase s) = toLowerCase (trimStart s).
Proof.
  induction s as [|c s IH]; [done |].
  cbn. rewrite lower_char_space. by destruct (is_space c).
Qed.

Lemma trimEnd_toLowerCase (s : string) :
  trimEnd (toLowerCase s) = toLowerCase (trimEnd s).
Proof.
  induction s as [|c s IH]; [done |].
  cbn. rewrite lower_char_space, IH, toLowerCase_empty.
  by destruct (is_space c && is_empty (trimEnd s)).
Qed.

(** Lower-casing and trimming commute. *)
Lemma trim_toLowerCase (s : string) :
  trim (toLowerCase s) = toLowerCase (trim s).
Proof. unfold trim. by rewrite trimStart_toLowerCase, trimEnd_toLowerCase. Qed.

Lemma trimStart_whitespace (s : string) :
  whitespace_only s -> trimStart s = EmptyString.
Proof.
  unfold whitespace_only. induction s as [|c s IH]; cbn; [done |].
  intros [Hc Hs]%Forall_cons. rewrite Hc. by apply IH.
Qed.

Lemma trim_whitespace (s : string) :
  whitespace_only s -> trim s = EmptyString.
Proof. intros H. unfold trim. by rewrite (trimStart_whitespace s H). Qed.

(** ** The patient list: search *)

Lemma matches_spec (query : string) (p : PatientRecords.Patient) :
  PatientRecords.matches (toLowerCase (trim query)) p = true
  <-> search_hit query p.
Proof.
  unfold PatientRecords.matches, search_hit.
  rewrite !orb_true_iff, !includes_spec. tauto.
Qed.

Lemma filter_retains {A} (f : A -> bool) (P : A -> Prop) (l : list A) :
  (forall x, f x = true <-> P x) -> retains P l (List.filter f l).
Proof.
  intros Hf. induction l as [|x l IH]; cbn; [constructor |].
  destruct (f x) eqn:Hx.
  - apply retains_keep; [by apply Hf | done].
  - apply retains_drop; [| done]. rewrite <- Hf. congruence.
Qed.

Lemma retains_all {A} (P : A -> Prop) (l : list A) :
  (forall x, P x) -> retains P l l.
Proof. intros HP. induction l; constructor; auto. Qed.

(** [retains] determines the kept list. *)
Lemma retains_functional {A} (P : A -> Prop) (l kept kept' : list A) :
  retains P l kept -> retains P l kept' -> kept = kept'.
Proof.
  intros H. revert kept'.
  induction H as [|x l kept Hx _ IH|x l kept Hx _ IH]; intros kept' H';
    inversion H'; subst; try done.
  - f_equal. by apply IH.
  - by apply IH.
Qed.

Lemma retains_elem {A} (P : A -> Prop) (l kept : list A) (x : A) :
  retains P l kept -> x ∈ kept <-> x ∈ l /\ P x.
Proof.
  induction 1 as [|y l kept Hy _ IH|y l kept Hy _ IH].
  - split; [by intros ?%elem_of_nil | by intros [?%elem_of_nil _]].
  - rewrite !elem_of_cons, IH. split.
    + intros [->|[Hin HP]]; [by split; [left |] | by split; [right |]].
    + intros [[->|Hin] HP]; [by left | by right].
  - rewrite elem_of_cons, IH. split.
    + intros [Hin HP]. by split; [right |].
    + intros [[->|Hin] HP]; [done | by split].
Qed.

(** C6. The client-side filter keeps exactly the patients for which the
    lower-cased trimmed query occurs in the lower-cased name, gender or
    contact or in the decimal rendering of the age; an empty or
    whitespace-only query keeps every patient. *)
Theorem C6_filterPatients_substring_search
    (patients : list PatientRecords.Patient) (query : string) :
  retains (search_hit query) patients
          (PatientRecords.filterPatients patients query)
  /\ (whitespace_only query ->
      PatientRecords.filterPatients patients query = patients).
Proof.
  unfold PatientRecords.filterPatients. split.
  - destruct (trim query) eqn:Htrim; cbn.
    + apply retains_all. intros p. unfold search_hit. rewrite Htrim. cbn.
      left. apply substring_empty.
    + rewrite trim_toLowerCase. apply filter_retains.
      intros p. apply matches_spec.
  - intros Hws. by rewrite (trim_whitespace query Hws).
Qed.

Lemma C6_blank_query_witness :
  PatientRecords.filterPatients [Samples.sarah] "   " = [Samples.sarah].
Proof.
  apply (C6_filterPatients_substring_search [Samples.sarah] "   ").
  repeat constructor.
Defined.

(** ** Goal flags through the edit form *)

Lemma GOAL_MAPPING_facts :
  Forall (fun kv =>
            truthy_string kv.1 = true
            /\ truthy_string kv.2 = true
            /\ EditPatientForm.non_goal_property kv.1 = false
            /\ assoc kv.1 EditPatientForm.GOAL_MAPPING = Some kv.2
            /\ EditPatientForm.find_api_key kv.2 = Some kv.1)
         EditPatientForm.GOAL_MAPPING.
Proof. repeat constructor. Qed.

Lemma goal_keys_NoDup : NoDup EditPatientForm.goal_keys.
Proof. apply (bool_decide_unpack _). by vm_compute. Qed.

Lemma goal_key_facts (k : string) :
  k ∈ EditPatientForm.goal_keys ->
  exists label,
    truthy_string k = true
    /\ truthy_string label = true
    /\ EditPatientForm.non_goal_property k = false
    /\ assoc k EditPatientForm.GOAL_MAPPING = Some label
    /\ EditPatientForm.find_api_key label = Some k.
Proof.
  unfold EditPatientForm.goal_keys. intros Hin.
  apply list_elem_of_fmap in Hin as ([k' label] & -> & Hin).
  exists label.
  exact (proj1 (Forall_forall _ _) GOAL_MAPPING_facts _ Hin).
Qed.

Lemma find_api_key_goal_key (goal k : string) :
  EditPatientForm.find_api_key goal = Some k -> k ∈ EditPatientForm.goal_keys.
Proof.
  unfold EditPatientForm.find_api_key, EditPatientForm.goal_keys.
  destruct (List.find _ _) as [[k' v]|] eqn:Hfind; [| done].
  intros [= <-]. apply List.find_some in Hfind as [Hin _].
  apply list_elem_of_fmap. exists (k', v). split; [done |].
  by apply list_elem_of_In.
Qed.

Lemma zeroed_lookup (keys : list string) (m : gmap string json) (k : string) :
  foldl (fun goalsData apiKey => <[apiKey := JNumber 0]> goalsData) m keys !! k
  = if decide (k ∈ keys) then Some (JNumber 0) else m !! k.
Proof.
  revert m. induction keys as [|x keys IH]; intros m; cbn.
  - by rewrite decide_False by apply not_elem_of_nil.
  - rewrite IH. destruct (decide (k ∈ keys)) as [Hin|Hnot].
    + by rewrite decide_True by (by right).
    + destruct (decide (k = x)) as [->|Hne].
      * rewrite lookup_insert_eq. by rewrite decide_True by left.
      * rewrite lookup_insert_ne by done.
        rewrite decide_False; [done |].
        by intros [?|?]%elem_of_cons.
Qed.

Lemma selected_lookup_keep (selected : list string) (m : gmap string json)
    (k : string) :
  m !! k = Some (JNumber 1) ->
  foldl (fun goalsData goal =>
           match EditPatientForm.find_api_key goal with
           | Some apiKey =>
               if truthy_string apiKey
               then <[apiKey := JNumber 1]> goalsData
               else goalsData
           | None => goalsData
           end) m selected !! k = Some (JNumber 1).
Proof.
  revert m. induction selected as [|g selected IH]; intros m Hm; cbn [foldl]; [done |].
  apply IH.
  destruct (EditPatientForm.find_api_key g) as [a|]; [| done].
  destruct (truthy_string a); [| done].
  destruct (decide (k = a)) as [->|Hne].
  - apply lookup_insert_eq.
  - by rewrite lookup_insert_ne.
Qed.

Lemma selected_lookup_hit (selected : list string) (m : gmap string json)
    (k goal : string) :
  goal ∈ selected ->
  EditPatientForm.find_api_key goal = Some k ->
  foldl (fun goalsData goal =>
           match EditPatientForm.find_api_key goal with
           | Some apiKey =>
               if truthy_string apiKey
               then <[apiKey := JNumber 1]> goalsData
               else goalsData
           | None => goalsData
           end) m selected !! k = Some (JNumber 1).
Proof.
  revert m. induction selected as [|g selected IH]; intros m Hin Hkey.
  - by apply elem_of_nil in Hin.
  - apply elem_of_cons in Hin as [<-|Hin]; cbn [foldl].
    + rewrite Hkey.
      destruct (goal_key_facts k (find_api_key_goal_key _ _ Hkey))
        as (label & -> & _).
      apply selected_lookup_keep, lookup_insert_eq.
    + by apply IH.
Qed.

Lemma selected_lookup_miss (selected : list string) (m : gmap string json)
    (k : string) :
  (forall goal, goal ∈ selected -> EditPatientForm.find_api_key goal <> Some k) ->
  foldl (fun goalsData goal =>
           match EditPatientForm.find_api_key goal with
           | Some apiKey =>
               if truthy_string apiKey
               then <[apiKey := JNumber 1]> goalsData
               else goalsData
           | None => goalsData
           end) m selected !! k = m !! k.
Proof.
  revert m. induction selected as [|g selected IH]; intros m Hmiss; cbn [foldl]; [done |].
  rewrite IH by (intros goal Hin; apply Hmiss; by right).
  pose proof (Hmiss g ltac:(left)) as Hg.
  destruct (EditPatientForm.find_api_key g) as [a|]; [| done].
  destruct (truthy_string a); [| done].
  apply lookup_insert_ne. congruence.
Qed.

(** The labels decoded from a goals record are those of the keys flagged 1. *)
Lemma getActiveGoalsFromData_elem (entries : list (string * json)) (goal : string) :
  goal ∈ EditPatientForm.getActiveGoalsFromData (Some entries)
  <-> exists key value,
        (key, value) ∈ entries
        /\ EditPatientForm.non_goal_property key = false
        /\ EditPatientForm.is_one value = true
        /\ goal = default EmptyString (assoc key EditPatientForm.GOAL_MAPPING)
        /\ truthy_string goal = true.
Proof.
  unfold EditPatientForm.getActiveGoalsFromData.
  rewrite list_elem_of_In, List.filter_In, List.in_map_iff. split.
  - intros [([key value] & <- & Hin) Htruthy].
    apply List.filter_In in Hin as [Hin Hactive].
    exists key, value. rewrite list_elem_of_In.
    destruct (EditPatientForm.non_goal_property key); [done |].
    by repeat split.
  - intros (key & value & Hin & Hskip & Hone & -> & Htruthy).
    split; [| done]. exists (key, value). split; [done |].
    apply List.filter_In. rewrite <- list_elem_of_In. split; [done |].
    by rewrite Hskip.
Qed.

Lemma goal_flags_NoDup (entries : list (string * json)) :
  goal_flags entries -> NoDup entries.*1.
Proof. intros [Hperm _]. rewrite Hperm. apply goal_keys_NoDup. Qed.

Lemma goal_flags_lookup (entries : list (string * json)) (k : string) (v : json) :
  goal_flags entries -> (k, v) ∈ entries ->
  (list_to_map entries : gmap string json) !! k = Some v.
Proof.
  intros Hflags Hin. by apply elem_of_list_to_map_1; [apply goal_flags_NoDup |].
Qed.

(** C3. A goals record that assigns 0 or 1 to exactly the thirteen goal keys
    comes back unchanged when it is decoded by [getActiveGoalsFromData] and
    encoded again by [handleSubmit]. *)
Theorem C3_goal_flags_round_trip (entries : list (string * json)) :
  goal_flags entries ->
  EditPatientForm.handleSubmit_goalsData
    (EditPatientForm.getActiveGoalsFromData (Some entries))
  = list_to_map entries.
Proof.
  intros Hflags. pose proof Hflags as [Hperm Hvalues].
  rewrite Forall_forall in Hvalues.
  apply map_eq. intros k. unfold EditPatientForm.handleSubmit_goalsData.
  destruct (decide (k ∈ EditPatientForm.goal_keys)) as [Hk|Hk].
  - destruct (goal_key_facts k Hk) as (label & _ & Hlabel & Hskip & Hassoc & Hkey).
    assert (exists v, (k, v) ∈ entries) as [v Hin].
    { rewrite <- Hperm in Hk.
      apply list_elem_of_fmap in Hk as ([k' v] & -> & Hin). by exists v. }
    rewrite (goal_flags_lookup entries k v Hflags Hin).
    destruct (Hvalues _ Hin) as [Hv|Hv]; cbn in Hv; subst v.
    + rewrite selected_lookup_miss.
      { rewrite zeroed_lookup. by rewrite decide_True. }
      intros goal (key & value & Hin' & _ & Hone & -> & _)%getActiveGoalsFromData_elem Hgoal.
      assert (key ∈ EditPatientForm.goal_keys) as Hkey'.
      { rewrite <- Hperm. apply list_elem_of_fmap. by exists (key, value). }
      destruct (goal_key_facts key Hkey') as (label' & _ & _ & _ & Hassoc' & Hfind').
      rewrite Hassoc' in Hgoal.
      change (EditPatientForm.find_api_key label' = Some k) in Hgoal.
      assert (key = k) as -> by congruence.
      pose proof (goal_flags_lookup entries k value Hflags Hin') as Hl.
      rewrite (goal_flags_lookup entries k (JNumber 0) Hflags Hin) in Hl.
      injection Hl as <-. discriminate Hone.
    + apply (selected_lookup_hit _ _ k label); [| done].
      apply getActiveGoalsFromData_elem. exists k, (JNumber 1).
      rewrite Hassoc. by repeat split.
  - rewrite selected_lookup_miss.
    + rewrite zeroed_lookup, decide_False by done.
      rewrite lookup_empty. symmetry.
      apply not_elem_of_list_to_map_1. by rewrite Hperm.
    + intros goal _ Hgoal. apply Hk. by apply (find_api_key_goal_key goal).
Qed.

Lemma C3_all_flags_set_witness :
  EditPatientForm.handleSubmit_goalsData
    (EditPatientForm.getActiveGoalsFromData (Some (Samples.all_flags 1)))
  = list_to_map (Samples.all_flags 1).
Proof.
  apply (C3_goal_flags_round_trip (Samples.all_flags 1)).
  split; [reflexivity |].
  apply Forall_forall. intros kv Hin. right.
  apply list_elem_of_fmap in Hin as (k & -> & _). reflexivity.
Defined.

(** ** The patient list: page refetched after a deletion *)

Lemma displayed_after_handleDelete (st : PatientRecords.State)
    (row : PatientRecords.Patient) :
  PatientRecords.filteredAndSortedPatients (PatientRecords.handleDelete st row)
  = PatientRecords.filteredAndSortedPatients st.
Proof. reflexivity. Qed.

Lemma displayed_rows_permutation (st : PatientRecords.State) :
  PatientRecords.filteredAndSortedPatients st
  ≡ₚ PatientRecords.filterPatients (PatientRecords.patients st)
       (PatientRecords.searchQuery st).
Proof. unfold PatientRecords.filteredAndSortedPatients. apply merge_sort_Permutation. Qed.

Lemma only_row {A} (l : list A) (x : A) :
  x ∈ l -> (length l = 1%nat <-> l = [x]).
Proof.
  intros Hin. split; [| by intros ->].
  destruct l as [|y [|z l]]; cbn; try done.
  intros _. by apply list_elem_of_singleton in Hin as ->.
Qed.

Lemma newPage_spec (st : PatientRecords.State) (row : PatientRecords.Patient) :
  row ∈ PatientRecords.filteredAndSortedPatients st ->
  PatientRecords.newPage st
  = if decide (PatientRecords.filteredAndSortedPatients st = [row]
               /\ 1 < PatientRecords.page (PatientRecords.pagination st))
    then PatientRecords.page (PatientRecords.pagination st) - 1
    else PatientRecords.page (PatientRecords.pagination st).
Proof.
  intros Hin. unfold PatientRecords.newPage.
  pose proof (only_row _ _ Hin) as Hone.
  destruct (Nat.eqb_spec (length (PatientRecords.filteredAndSortedPatients st)) 1)
    as [Hlen|Hlen];
    destruct (Z.ltb_spec 1 (PatientRecords.page (PatientRecords.pagination st)))
      as [Hpage|Hpage]; cbn.
  - rewrite decide_True; [done |]. split; [by apply Hone | done].
  - rewrite decide_False; [done |]. intros [_ ?]. lia.
  - rewrite decide_False; [done |]. intros [? _]. by apply Hlen, Hone.
  - rewrite decide_False; [done |]. intros [_ ?]. lia.
Qed.

(** C10. After a successful deletion started from a displayed row, the list
    refetches page current - 1 exactly when that row was the only one
    displayed and the current page exceeds 1; otherwise it refetches the
    current page. *)
Theorem C10_page_refetched_after_delete
    (deletePatient : string -> completion json)
    (getPatients : Z -> Z -> completion PatientRecords.PatientsPage)
    (st : PatientRecords.State) (row : PatientRecords.Patient) (answer : json) :
  row ∈ PatientRecords.filteredAndSortedPatients st ->
  deletePatient (PatientRecords.id row) = Normal answer ->
  let current := PatientRecords.page (PatientRecords.pagination st) in
  let only_row_on_later_page :=
    PatientRecords.filteredAndSortedPatients st = [row] /\ 1 < current in
  exists refetched,
    (PatientRecords.handleDeleteConfirm deletePatient getPatients
       (PatientRecords.handleDelete st row)).2
    = [PatientRecords.DeletePatient (PatientRecords.id row);
       PatientRecords.GetPatients refetched
         (PatientRecords.limit (PatientRecords.pagination st))]
    /\ (refetched = current - 1 <-> only_row_on_later_page)
    /\ (~ only_row_on_later_page -> refetched = current).
Proof.
  intros Hin Hdeleted current only_row_on_later_page.
  exists (PatientRecords.newPage st). split.
  - unfold PatientRecords.handleDeleteConfirm.
    cbn [PatientRecords.handleDelete PatientRecords.selectedPatient].
    rewrite Hdeleted.
    change (PatientRecords.newPage (PatientRecords.handleDelete st row))
      with (PatientRecords.newPage st).
    cbn [PatientRecords.handleDelete PatientRecords.pagination].
    by destruct (getPatients _ _).
  - rewrite (newPage_spec st row Hin).
    fold current. fold only_row_on_later_page.
    destruct (decide only_row_on_later_page) as [Hyes|Hno].
    + split; [done |]. by intros [].
    + split; [| done]. split; [lia | done].
Qed.

Lemma C10_last_row_of_second_page_witness :
  exists refetched,
    (PatientRecords.handleDeleteConfirm
       (fun _ => Normal JNull) (fun _ _ => Normal Samples.empty_page)
       (PatientRecords.handleDelete Samples.second_page Samples.sarah)).2
    = [PatientRecords.DeletePatient "SAMPLE1";
       PatientRecords.GetPatients refetched 100]
    /\ (refetched = 2 - 1
        <-> PatientRecords.filteredAndSortedPatients Samples.second_page
            = [Samples.sarah] /\ 1 < 2)
    /\ (~ (PatientRecords.filteredAndSortedPatients Samples.second_page
           = [Samples.sarah] /\ 1 < 2) -> refetched = 2).
Proof.
  apply (C10_page_refetched_after_delete
           (fun _ => Normal JNull) (fun _ _ => Normal Samples.empty_page)
           Samples.second_page Samples.sarah JNull).
  - vm_compute. left.
  - reflexivity.
Defined.

(** ** Dashboard: one decimal place *)

Lemma pretty_digit_length (d : Z) :
  0 <= d < 10 -> String.length (pretty d) = 1%nat.
Proof.
  intros Hd.
  assert (d = 0 \/ d = 1 \/ d = 2 \/ d = 3 \/ d = 4 \/ d = 5 \/ d = 6
          \/ d = 7 \/ d = 8 \/ d = 9) as Hcases by lia.
  repeat (destruct Hcases as [->|Hcases]; [reflexivity |]).
  by subst d.
Qed.

Lemma pad_left_full (width : nat) (s : string) :
  String.length s = width -> Dashboard.pad_left width s = s.
Proof. intros <-. unfold Dashboard.pad_left. by rewrite Nat.sub_diag. Qed.

Lemma tenths_nearest (p : Q) :
  nearest_tenths p (Qfloor (Qabs p * inject_Z 10 + (1 # 2))%Q).
Proof.
  unfold nearest_tenths.
  pose proof (Qabs_nonneg p) as Ha.
  pose proof (Qfloor_le (Qabs p * inject_Z 10 + (1 # 2))%Q) as Hlo.
  pose proof (Qlt_floor (Qabs p * inject_Z 10 + (1 # 2))%Q) as Hhi.
  rewrite inject_Z_plus in Hhi.
  change (inject_Z 10) with 10%Q in *. change (inject_Z 1) with 1%Q in *.
  generalize dependent (Qfloor (Qabs p * 10 + (1 # 2))%Q). intros n Hlo Hhi.
  generalize dependent (Qabs p). intros a Ha Hlo Hhi.
  split.
  - assert (inject_Z (-1) < inject_Z n)%Q as Hn.
    { change (inject_Z (-1)) with (-1)%Q. lra. }
    rewrite <- Zlt_Qlt in Hn. lia.
  - apply Qabs_Qle_condition. unfold Qdiv.
    change (/ 10)%Q with (1 # 10)%Q. split; lra.
Qed.

Lemma toFixed_one_decimal (p : Q) :
  rounded_to_one_decimal p (Dashboard.toFixed 1 p).
Proof.
  exists (Qfloor (Qabs p * inject_Z 10 + (1 # 2))%Q).
  split; [apply tenths_nearest |].
  unfold Dashboard.toFixed, one_decimal.
  change (10 ^ Z.of_nat 1) with 10.
  rewrite pad_left_full
    by (apply pretty_digit_length, Z.mod_pos_bound; lia).
  destruct (Qlt_le_dec p 0) as [Hneg|Hpos]; split; intros H; try done.
  - exfalso. by apply (Qlt_not_le _ _ Hneg).
  - exfalso. by apply (Qlt_not_le _ _ H).
Qed.

Lemma pretty_N_char_not_plus (d : N) :
  Ascii.eqb "+" (pretty_N_char d) = false.
Proof. unfold pretty_N_char. by repeat case_match. Qed.

Lemma pretty_N_go_head (x : N) (s : string) :
  (exists c rest, s = String c rest /\ Ascii.eqb "+" c = false) ->
  exists c rest, pretty_N_go x s = String c rest /\ Ascii.eqb "+" c = false.
Proof.
  revert s. induction (N.lt_wf_0 x) as [x _ IH]. intros s Hs.
  destruct (decide (x = 0%N)) as [->|Hx].
  - by rewrite pretty_N_go_0.
  - rewrite pretty_N_go_step by lia.
    apply IH; [apply N.div_lt; lia |].
    eexists _, _. split; [reflexivity | apply pretty_N_char_not_plus].
Qed.

Lemma pretty_Z_head (z : Z) :
  0 <= z ->
  exists c rest, pretty z = String c rest /\ Ascii.eqb "+" c = false.
Proof.
  intros Hz. destruct z as [|q|q]; [by eexists _, _ | | lia].
  change (pretty (Z.pos q)) with (pretty (N.pos q)).
  unfold pretty, pretty_N. rewrite decide_False by done.
  rewrite pretty_N_go_step by lia.
  apply pretty_N_go_head.
  eexists _, _. split; [reflexivity | apply pretty_N_char_not_plus].
Qed.

Lemma one_decimal_no_plus (tenths : Z) (rest : string) :
  0 <= tenths -> startsWith (one_decimal tenths +:+ rest) "+" = false.
Proof.
  intros Hn. unfold one_decimal.
  destruct (pretty_Z_head (tenths / 10)) as (c & tail & -> & Hc).
  { apply Z.div_pos; lia. }
  rewrite !append_cons. cbn [startsWith]. by rewrite Hc.
Qed.

(** C7. A null change_percentage is rendered as N/A; any other value is
    rendered as the value rounded to one decimal place followed by a percent
    sign, with a plus sign in front exactly when the value is strictly
    positive. The value ranges over the finite numbers of magnitude below
    10^21, which [toFixed] prints in positional notation. *)
Theorem C7_formatPercentage_rendering :
  Dashboard.formatPercentage None = "N/A"
  /\ forall p : Q,
       (Qabs p < inject_Z (10 ^ 21))%Q ->
       exists rounded,
         rounded_to_one_decimal p rounded
         /\ ((0 < p)%Q ->
             Dashboard.formatPercentage (Some p) = "+" +:+ rounded +:+ "%")
         /\ (~ (0 < p)%Q ->
             Dashboard.formatPercentage (Some p) = rounded +:+ "%")
         /\ (startsWith (Dashboard.formatPercentage (Some p)) "+" = true
             <-> (0 < p)%Q).
Proof.
  split; [reflexivity |]. intros p _.
  exists (Dashboard.toFixed 1 p).
  pose proof (toFixed_one_decimal p) as Hrounded.
  split; [done |]. unfold Dashboard.formatPercentage.
  destruct (Qlt_le_dec 0 p) as [Hpos|Hnonpos].
  - split; [done |]. split; [by intros Hnot |].
    split; [done | reflexivity].
  - assert (~ (0 < p)%Q) as Hnot by (by apply Qle_not_lt).
    split; [done |]. split; [done |]. split; [| done].
    intros Hplus. exfalso.
    destruct Hrounded as (tenths & [Hn _] & Hneg & Hzero).
    destruct (Qlt_le_dec p 0) as [Hlt|Hle].
    + rewrite (Hneg Hlt) in Hplus. discriminate Hplus.
    + rewrite (Hzero Hle), (one_decimal_no_plus tenths "%" Hn) in Hplus.
      discriminate Hplus.
Qed.

Lemma C7_twelve_point_three_witness :
  exists rounded,
    rounded_to_one_decimal (1234 # 100) rounded
    /\ ((0 < 1234 # 100)%Q ->
        Dashboard.formatPercentage (Some (1234 # 100)%Q)
        = "+" +:+ rounded +:+ "%")
    /\ (~ (0 < 1234 # 100)%Q ->
        Dashboard.formatPercentage (Some (1234 # 100)%Q) = rounded +:+ "%")
    /\ (startsWith (Dashboard.formatPercentage (Some (1234 # 100)%Q)) "+" = true
        <-> (0 < 1234 # 100)%Q).
Proof.
  apply (proj2 C7_formatPercentage_rendering (1234 # 100)%Q).
  reflexivity.
Defined.


(** ** The weight line of the Recent Changes panel *)

Lemma truthy_append_r (a b : string) :
  truthy_string b = true -> truthy_string (a +:+ b) = true.
Proof. intros Hb. by destruct a. Qed.

Lemma pretty_Z_truthy (z : Z) : truthy_string (pretty z) = true.
Proof.
  destruct z as [|q|q]; [done | | done].
  by destruct (pretty_Z_head (Z.pos q)) as (c & rest & -> & _).
Qed.

Lemma signed_truthy (delta : Z) :
  truthy_string (DerivedMetrics.signed delta) = true.
Proof.
  unfold DerivedMetrics.signed.
  destruct (0 <? delta); [apply truthy_append_r |]; apply pretty_Z_truthy.
Qed.

Lemma percentage_change_spec (metric : DerivedMetrics.Visit -> option Z)
    (previous latest : DerivedMetrics.Visit) (a b : Z) :
  metric previous = Some a -> metric latest = Some b -> a <> 0 ->
  exists text,
    DerivedMetrics.percentage_change metric previous latest = Some text
    /\ signed_percentage ((inject_Z (b - a) / inject_Z a) * 100)%Q text
    /\ truthy_string text = true.
Proof.
  intros Ha Hb Hne. unfold DerivedMetrics.percentage_change.
  rewrite Ha, Hb. destruct (Z.eqb_spec a 0) as [|_]; [done |].
  eexists. split; [reflexivity |]. split.
  - exists (Dashboard.toFixed 1 ((inject_Z (b - a) / inject_Z a) * 100)%Q).
    split; [apply toFixed_one_decimal |].
    destruct (Qlt_le_dec 0 _) as [Hpos|Hle]; split; intros H; try done.
    exfalso. by apply (Qle_not_lt _ _ Hle).
  - by do 2 apply truthy_append_r.
Qed.

(** C4. With the two most recent visits weighing 200 (2024-01-10) and 190
    (2024-02-10) the delta computation gives weight_change = -10 and
    weight_percentage_change = -5.0%; and in general the view shows the
    signed delta followed by lbs and, in parentheses, the percentage change
    relative to the earlier value. *)
Theorem C4_weight_change_example :
  (forall older,
      exists c,
        DerivedMetrics.latest_changes
          (older ++ [Samples.weighed "2024-01-10" 200;
                     Samples.weighed "2024-02-10" 190]) = Some c
        /\ PatientDetail.weight_change c = Some "-10"
        /\ PatientDetail.weight_percentage_change c = Some "-5.0%"
        /\ PatientDetail.textContent <$> PatientDetail.weight_row c
           = ["Weight-10 lbs(-5.0%)"])
  /\ (forall older previous latest a b,
        DerivedMetrics.weight previous = Some a ->
        DerivedMetrics.weight latest = Some b ->
        a <> 0 ->
        exists c pct,
          DerivedMetrics.latest_changes (older ++ [previous; latest]) = Some c
          /\ signed_percentage ((inject_Z (b - a) / inject_Z a) * 100)%Q pct
          /\ PatientDetail.textContent <$> PatientDetail.weight_row c
             = ["Weight" +:+ DerivedMetrics.signed (b - a) +:+ " lbs"
                +:+ "(" +:+ pct +:+ ")"])
  /\ (forall c change pct,
        PatientDetail.weight_change c = Some change ->
        truthy_string change = true ->
        PatientDetail.weight_percentage_change c = Some pct ->
        truthy_string pct = true ->
        PatientDetail.textContent <$> PatientDetail.weight_row c
        = ["Weight" +:+ change +:+ " lbs" +:+ "(" +:+ pct +:+ ")"]).
Proof.
  split; [| split].
  - intros older. eexists. split; [apply latest_changes_two |].
    repeat split; vm_compute; reflexivity.
  - intros older previous latest a b Ha Hb Hne.
    destruct (percentage_change_spec _ previous latest a b Ha Hb Hne)
      as (pct & Hpct & Hspec & Htruthy).
    eexists _, pct. split; [apply latest_changes_two |]. split; [done |].
    apply weight_row_text; cbn [PatientDetail.weight_change
                                PatientDetail.weight_percentage_change];
      [| apply signed_truthy | done | done].
    unfold DerivedMetrics.change. by rewrite Ha, Hb.
  - apply weight_row_text.
Qed.

Lemma C4_gain_of_three_pounds_witness :
  exists c pct,
    DerivedMetrics.latest_changes
      ([] ++ [Samples.weighed "2024-03-01" 200;
              Samples.weighed "2024-04-01" 203]) = Some c
    /\ signed_percentage ((inject_Z (203 - 200) / inject_Z 200) * 100)%Q pct
    /\ PatientDetail.textContent <$> PatientDetail.weight_row c
       = ["Weight" +:+ DerivedMetrics.signed (203 - 200) +:+ " lbs"
          +:+ "(" +:+ pct +:+ ")"].
Proof.
  apply (proj1 (proj2 C4_weight_change_example) []
           (Samples.weighed "2024-03-01" 200)
           (Samples.weighed "2024-04-01" 203) 200 203);
    [reflexivity | reflexivity | lia].
Defined.

(** ** Goal check boxes *)

Lemma array_includes_spec (prev : list string) (goal : string) :
  GoalSelection.array_includes prev goal = true <-> goal ∈ prev.
Proof.
  unfold GoalSelection.array_includes.
  rewrite List.existsb_exists, list_elem_of_In. split.
  - intros (x & Hin & Heq). by apply String.eqb_eq in Heq as ->.
  - intros Hin. exists goal. split; [done | apply String.eqb_refl].
Qed.

Lemma elem_of_remove_goal (prev : list string) (goal g : string) :
  g ∈ List.filter (fun x => negb (String.eqb x goal)) prev
  <-> g ∈ prev /\ g <> goal.
Proof.
  rewrite !list_elem_of_In, List.filter_In, negb_true_iff.
  split; intros [Hin Hne]; (split; [done |]).
  - intros ->. by rewrite String.eqb_refl in Hne.
  - by apply String.eqb_neq.
Qed.

Lemma remove_absent_goal (prev : list string) (goal : string) :
  goal ∉ prev -> List.filter (fun x => negb (String.eqb x goal)) prev = prev.
Proof.
  induction prev as [|x prev IH]; [done |].
  intros [Hne Hnot]%not_elem_of_cons. cbn.
  destruct (String.eqb_spec x goal) as [->|_]; [done |].
  cbn. by rewrite IH.
Qed.

Lemma remove_present_goal (prev : list string) (goal : string) :
  NoDup prev -> goal ∈ prev ->
  prev ≡ₚ goal :: List.filter (fun x => negb (String.eqb x goal)) prev.
Proof.
  induction prev as [|x prev IH]; intros Hnd Hin.
  - by apply elem_of_nil in Hin.
  - apply NoDup_cons in Hnd as [Hx Hnd]. cbn.
    destruct (String.eqb_spec x goal) as [->|Hne]; cbn.
    + by rewrite (remove_absent_goal prev goal Hx).
    + apply elem_of_cons in Hin as [->|Hin]; [done |].
      rewrite (IH Hnd Hin) at 1. apply Permutation_swap.
Qed.

(** X1. Ticking a goal's check box flips that goal and no other: after
    [toggleGoal] the goal is selected exactly when it was not before, and
    every other goal is selected exactly when it was. *)
Theorem toggleGoal_flips_one_goal (prev : list string) (goal g : string) :
  g ∈ GoalSelection.toggleGoal prev goal
  <-> (g = goal /\ goal ∉ prev) \/ (g <> goal /\ g ∈ prev).
Proof.
  unfold GoalSelection.toggleGoal.
  destruct (GoalSelection.array_includes prev goal) eqn:Hinc.
  - apply array_includes_spec in Hinc.
    rewrite elem_of_remove_goal. split.
    + intros [Hin Hne]. by right.
    + intros [[-> Hnot] | [Hne Hin]]; done.
  - assert (goal ∉ prev) as Hnot.
    { intros Hin%array_includes_spec. congruence. }
    rewrite elem_of_app, list_elem_of_singleton. split.
    + intros [Hin | ->]; [right | by left].
      split; [| done]. by intros ->.
    + intros [[-> _] | [_ Hin]]; [by right | by left].
Qed.

(** X2. On a selection without repetitions [toggleGoal] keeps it free of
    repetitions, and ticking the same box twice gives back the same goals:
    the very same list when the goal was not selected, and the same goals
    with that one moved to the end when it was. *)
Theorem toggleGoal_twice (prev : list string) (goal : string) :
  NoDup prev ->
  NoDup (GoalSelection.toggleGoal prev goal)
  /\ GoalSelection.toggleGoal (GoalSelection.toggleGoal prev goal) goal ≡ₚ prev
  /\ (goal ∉ prev ->
      GoalSelection.toggleGoal (GoalSelection.toggleGoal prev goal) goal = prev).
Proof.
  intros Hnd.
  destruct (GoalSelection.array_includes prev goal) eqn:Hinc.
  - apply array_includes_spec in Hinc.
    assert (GoalSelection.toggleGoal prev goal
            = List.filter (fun x => negb (String.eqb x goal)) prev) as ->.
    { unfold GoalSelection.toggleGoal.
      by rewrite (proj2 (array_includes_spec prev goal) Hinc). }
    set (rest := List.filter (fun x => negb (String.eqb x goal)) prev).
    assert (goal ∉ rest) as Hnot.
    { intros [_ Hne]%elem_of_remove_goal. done. }
    assert (GoalSelection.toggleGoal rest goal = rest ++ [goal]) as ->.
    { unfold GoalSelection.toggleGoal.
      destruct (GoalSelection.array_includes rest goal) eqn:H; [| done].
      by apply array_includes_spec in H. }
    split; [| split].
    + subst rest. apply NoDup_ListNoDup, List.NoDup_filter.
      by apply NoDup_ListNoDup.
    + rewrite (remove_present_goal prev goal Hnd Hinc).
      fold rest. apply Permutation_app_comm.
    + done.
  - assert (goal ∉ prev) as Hnot.
    { intros Hin%array_includes_spec. congruence. }
    assert (GoalSelection.toggleGoal prev goal = prev ++ [goal]) as ->.
    { unfold GoalSelection.toggleGoal. by rewrite Hinc. }
    assert (GoalSelection.toggleGoal (prev ++ [goal]) goal = prev) as ->.
    { unfold GoalSelection.toggleGoal.
      assert (GoalSelection.array_includes (prev ++ [goal]) goal = true) as ->.
      { apply array_includes_spec, elem_of_app. right. by left. }
      rewrite List.filter_app, (remove_absent_goal prev goal Hnot). cbn.
      rewrite String.eqb_refl. cbn. apply app_nil_r. }
    split; [| done].
    apply NoDup_app. split; [done |]. split; [| apply NoDup_singleton].
    intros x Hx ->%list_elem_of_singleton. done.
Qed.

Lemma toggleGoal_twice_witness :
  GoalSelection.toggleGoal
    (GoalSelection.toggleGoal ["QUIT SMOKING"] "LOWERED SALT INTAKE")
    "LOWERED SALT INTAKE"
  ≡ₚ ["QUIT SMOKING"].
Proof.
  apply (toggleGoal_twice ["QUIT SMOKING"] "LOWERED SALT INTAKE").
  apply NoDup_singleton.
Defined.

(** ** Goal tables: encoding a selection and decoding a goals record *)

Section GoalTable.
Variable M : list (string * string).

Local Abbreviation key_of goal :=
  (fst <$> List.find (fun '(_, value) => String.eqb value goal) M).

Local Abbreviation step :=
  (fun (acc : gmap string json) (goal : string) =>
     match key_of goal with
     | Some apiKey =>
         if truthy_string apiKey then <[apiKey := JNumber 1]> acc else acc
     | None => acc
     end).

Local Abbreviation encode selected :=
  (foldl step
         (foldl (fun (acc : gmap string json) key => <[key := JNumber 0]> acc)
                ∅ (M.*1))
         selected).

Local Abbreviation decode entries :=
  (List.filter truthy_string
     (List.map (fun '(key, _) => default EmptyString (assoc key M))
        (List.filter
           (fun '(key, value) =>
              if EditPatientForm.non_goal_property key then false
              else EditPatientForm.is_one value)
           entries))).

Hypothesis M_keys : NoDup M.*1.
Hypothesis M_facts :
  Forall (fun kv =>
            truthy_string kv.1 = true
            /\ truthy_string kv.2 = true
            /\ EditPatientForm.non_goal_property kv.1 = false
            /\ assoc kv.1 M = Some kv.2
            /\ key_of kv.2 = Some kv.1) M.

Lemma table_row (k label : string) :
  (k, label) ∈ M ->
  truthy_string k = true
  /\ truthy_string label = true
  /\ EditPatientForm.non_goal_property k = false
  /\ assoc k M = Some label
  /\ key_of label = Some k.
Proof. intros Hin. exact (proj1 (Forall_forall _ _) M_facts _ Hin). Qed.

Lemma table_key_row (goal k : string) :
  key_of goal = Some k -> (k, goal) ∈ M.
Proof.
  destruct (List.find _ _) as [[k' v]|] eqn:Hfind; [| done].
  intros [= <-]. apply List.find_some in Hfind as [Hin Heq].
  apply String.eqb_eq in Heq as ->. by apply list_elem_of_In.
Qed.

Lemma table_label_unique (k a b : string) :
  (k, a) ∈ M -> (k, b) ∈ M -> a = b.
Proof.
  intros Ha Hb.
  pose proof (elem_of_list_to_map_1 (M:=gmap string) _ k a M_keys Ha) as Hl.
  rewrite (elem_of_list_to_map_1 (M:=gmap string) _ k b M_keys Hb) in Hl.
  congruence.
Qed.

Lemma table_keep (selected : list string) (m : gmap string json) (k : string) :
  m !! k = Some (JNumber 1) -> foldl step m selected !! k = Some (JNumber 1).
Proof.
  revert m. induction selected as [|g selected IH]; intros m Hm;
    cbn [foldl]; [done |].
  apply IH.
  destruct (key_of g) as [a|]; [| done].
  destruct (truthy_string a); [| done].
  destruct (decide (k = a)) as [->|Hne].
  - apply lookup_insert_eq.
  - by rewrite lookup_insert_ne.
Qed.

Lemma table_hit (selected : list string) (m : gmap string json)
    (k label : string) :
  (k, label) ∈ M -> label ∈ selected ->
  foldl step m selected !! k = Some (JNumber 1).
Proof.
  intros Hrow. destruct (table_row k label Hrow) as (Hk & _ & _ & _ & Hkey).
  revert m. induction selected as [|g selected IH]; intros m Hin.
  - by apply elem_of_nil in Hin.
  - apply elem_of_cons in Hin as [<-|Hin]; cbn [foldl]; [| by apply IH].
    rewrite Hkey, Hk. apply table_keep, lookup_insert_eq.
Qed.

Lemma table_miss (selected : list string) (m : gmap string json)
    (k label : string) :
  (k, label) ∈ M -> label ∉ selected ->
  foldl step m selected !! k = m !! k.
Proof.
  intros Hrow. revert m.
  induction selected as [|g selected IH]; intros m Hnot; cbn [foldl]; [done |].
  apply not_elem_of_cons in Hnot as [Hne Hnot].
  rewrite (IH _ Hnot).
  destruct (key_of g) as [a|] eqn:Hg; [| done].
  destruct (truthy_string a); [| done].
  apply lookup_insert_ne. intros ->.
  apply Hne. by apply (table_label_unique k label g); [| apply table_key_row].
Qed.

Lemma table_outside (selected : list string) (m : gmap string json)
    (k : string) :
  k ∉ M.*1 -> foldl step m selected !! k = m !! k.
Proof.
  intros Hk. revert m.
  induction selected as [|g selected IH]; intros m; cbn [foldl]; [done |].
  rewrite IH.
  destruct (key_of g) as [a|] eqn:Hg; [| done].
  destruct (truthy_string a); [| done].
  apply lookup_insert_ne. intros ->. apply Hk.
  apply list_elem_of_fmap. exists (k, g). split; [done |].
  by apply table_key_row.
Qed.

(** What the encoded object holds under each key. *)
Lemma table_encode_lookup (selected : list string) (k : string) :
  (k ∉ M.*1 -> encode selected !! k = None)
  /\ (forall label,
         (k, label) ∈ M ->
         (label ∈ selected -> encode selected !! k = Some (JNumber 1))
         /\ (label ∉ selected -> encode selected !! k = Some (JNumber 0))).
Proof.
  split.
  - intros Hk. rewrite table_outside by done.
    by rewrite zeroed_lookup, decide_False.
  - intros label Hrow. split; intros Hsel.
    + by apply (table_hit _ _ k label).
    + rewrite (table_miss _ _ k label) by done.
      rewrite zeroed_lookup, decide_True; [done |].
      apply list_elem_of_fmap. by exists (k, label).
Qed.

Lemma table_decode_elem (entries : list (string * json)) (goal : string) :
  goal ∈ decode entries
  <-> exists key value,
        (key, value) ∈ entries
        /\ EditPatientForm.non_goal_property key = false
        /\ EditPatientForm.is_one value = true
        /\ goal = default EmptyString (assoc key M)
        /\ truthy_string goal = true.
Proof.
  rewrite list_elem_of_In, List.filter_In, List.in_map_iff. split.
  - intros [([key value] & <- & Hin) Htruthy].
    apply List.filter_In in Hin as [Hin Hactive].
    exists key, value. rewrite list_elem_of_In.
    destruct (EditPatientForm.non_goal_property key); [done |].
    by repeat split.
  - intros (key & value & Hin & Hskip & Hone & -> & Htruthy).
    split; [| done]. exists (key, value). split; [done |].
    apply List.filter_In. rewrite <- list_elem_of_In. split; [done |].
    by rewrite Hskip.
Qed.

(** Decoding a 0/1 record over the keys of the table and encoding the
    result gives the record back. *)
Lemma table_round_trip (entries : list (string * json)) :
  entries.*1 ≡ₚ M.*1 ->
  Forall (fun kv => kv.2 = JNumber 0 \/ kv.2 = JNumber 1) entries ->
  encode (decode entries) = list_to_map entries.
Proof.
  intros Hperm Hvalues. rewrite Forall_forall in Hvalues.
  assert (NoDup entries.*1) as Hnd by (by rewrite Hperm).
  apply map_eq. intros k.
  destruct (decide (k ∈ M.*1)) as [Hk|Hk].
  - pose proof Hk as Hk'.
    apply list_elem_of_fmap in Hk' as ([k' label] & -> & Hrow). cbn [fst].
    destruct (table_row k' label Hrow) as (_ & Hlabel & Hskip & Hassoc & Hfind).
    assert (exists v, (k', v) ∈ entries) as [v Hin].
    { rewrite <- Hperm in Hk.
      apply list_elem_of_fmap in Hk as ([k'' v] & Heq & Hin). cbn in Heq.
      subst k''. by exists v. }
    rewrite (elem_of_list_to_map_1 entries k' v Hnd Hin).
    destruct (proj2 (table_encode_lookup (decode entries) k') label Hrow)
      as [Hyes Hno].
    destruct (Hvalues _ Hin) as [Hv|Hv]; cbn in Hv; subst v.
    + apply Hno.
      intros (key & value & Hin' & _ & Hone & Hgoal & _)%table_decode_elem.
      assert (key ∈ M.*1) as Hkey.
      { rewrite <- Hperm. apply list_elem_of_fmap. by exists (key, value). }
      apply list_elem_of_fmap in Hkey as ([key' label'] & -> & Hrow').
      cbn [fst] in *.
      destruct (table_row key' label' Hrow') as (_ & _ & _ & Hassoc' & Hfind').
      rewrite Hassoc' in Hgoal. cbn [from_option] in Hgoal. unfold id in Hgoal.
      subst label'.
      assert (key' = k') as -> by congruence.
      pose proof (elem_of_list_to_map_1 entries k' value Hnd Hin') as Hl.
      rewrite (elem_of_list_to_map_1 entries k' (JNumber 0) Hnd Hin) in Hl.
      injection Hl as <-. discriminate Hone.
    + apply Hyes. apply table_decode_elem. exists k', (JNumber 1).
      rewrite Hassoc. by repeat split.
  - rewrite (proj1 (table_encode_lookup (decode entries) k) Hk).
    symmetry. apply not_elem_of_list_to_map_1. by rewrite Hperm.
Qed.

(** Encoding a selection of labels of the table and decoding any listing
    of the resulting object gives the selected labels, and nothing else. *)
Lemma table_decode_encode (selected : list string)
    (entries : list (string * json)) (goal : string) :
  Forall (fun label => label ∈ M.*2) selected ->
  NoDup entries.*1 ->
  list_to_map entries = encode selected ->
  goal ∈ decode entries <-> goal ∈ selected.
Proof.
  intros Hlabels Hnd Hmap. rewrite Forall_forall in Hlabels.
  rewrite table_decode_elem. split.
  - intros (key & value & Hin & _ & Hone & -> & _).
    pose proof (elem_of_list_to_map_1 entries key value Hnd Hin) as Hl.
    rewrite Hmap in Hl.
    destruct (decide (key ∈ M.*1)) as [Hk|Hk].
    + apply list_elem_of_fmap in Hk as ([key' label] & -> & Hrow).
      cbn [fst] in *.
      destruct (table_row key' label Hrow) as (_ & _ & _ & -> & _).
      cbn [from_option]. unfold id.
      destruct (decide (label ∈ selected)) as [Hsel|Hsel]; [done |].
      rewrite (proj2 (proj2 (table_encode_lookup selected key') label Hrow)
                 Hsel) in Hl.
      injection Hl as <-. discriminate Hone.
    + by rewrite (proj1 (table_encode_lookup selected key) Hk) in Hl.
  - intros Hsel.
    pose proof (Hlabels _ Hsel) as Hlabel.
    apply list_elem_of_fmap in Hlabel as ([k label] & -> & Hrow).
    cbn [snd] in *.
    destruct (table_row k label Hrow) as (_ & Htruthy & Hskip & Hassoc & _).
    exists k, (JNumber 1). rewrite Hassoc. repeat split; try done.
    apply (elem_of_list_to_map_2 (M:=gmap string)). rewrite Hmap.
    by apply (proj2 (table_encode_lookup selected k) label Hrow).
Qed.

End GoalTable.

(** ** The goal objects the forms send *)

Lemma visit_table_facts :
  Forall (fun kv =>
            truthy_string kv.1 = true
            /\ truthy_string kv.2 = true
            /\ EditPatientForm.non_goal_property kv.1 = false
            /\ assoc kv.1 NewVisitForm.GOALS_MAPPING = Some kv.2
            /\ fst <$> List.find (fun '(_, value) => String.eqb value kv.2)
                                 NewVisitForm.GOALS_MAPPING = Some kv.1)
         NewVisitForm.GOALS_MAPPING.
Proof. repeat constructor. Qed.

Lemma visit_table_keys : NoDup NewVisitForm.GOALS_MAPPING.*1.
Proof. apply (bool_decide_unpack _). by vm_compute. Qed.

(** X3. Whatever is selected, the goals object built by the edit form holds
    exactly the thirteen goal keys: 1 under the key of every selected
    display name, 0 under the others; names that are no display name change
    nothing. *)
Theorem handleSubmit_goalsData_lookup (selectedGoals : list string)
    (k : string) :
  (k ∉ EditPatientForm.goal_keys ->
   EditPatientForm.handleSubmit_goalsData selectedGoals !! k = None)
  /\ (forall label,
         (k, label) ∈ EditPatientForm.GOAL_MAPPING ->
         (label ∈ selectedGoals ->
          EditPatientForm.handleSubmit_goalsData selectedGoals !! k
          = Some (JNumber 1))
         /\ (label ∉ selectedGoals ->
             EditPatientForm.handleSubmit_goalsData selectedGoals !! k
             = Some (JNumber 0))).
Proof.
  exact (table_encode_lookup EditPatientForm.GOAL_MAPPING goal_keys_NoDup
           GOAL_MAPPING_facts selectedGoals k).
Qed.

(** X4. Selecting display names in the edit form, submitting, and decoding
    the stored record again with [getActiveGoalsFromData] shows exactly the
    names that were selected. *)
Theorem getActiveGoalsFromData_after_submit (selectedGoals : list string)
    (entries : list (string * json)) (goal : string) :
  Forall (fun label => label ∈ EditPatientForm.HEALTH_GOALS) selectedGoals ->
  NoDup entries.*1 ->
  list_to_map entries = EditPatientForm.handleSubmit_goalsData selectedGoals ->
  goal ∈ EditPatientForm.getActiveGoalsFromData (Some entries)
  <-> goal ∈ selectedGoals.
Proof.
  exact (table_decode_encode EditPatientForm.GOAL_MAPPING goal_keys_NoDup
           GOAL_MAPPING_facts selectedGoals entries goal).
Qed.

Lemma getActiveGoalsFromData_after_submit_witness :
  "QUIT SMOKING"
  ∈ EditPatientForm.getActiveGoalsFromData
      (Some (map_to_list
               (EditPatientForm.handleSubmit_goalsData ["QUIT SMOKING"])))
  <-> "QUIT SMOKING" ∈ ["QUIT SMOKING"].
Proof.
  apply (getActiveGoalsFromData_after_submit ["QUIT SMOKING"]).
  - repeat constructor.
  - apply NoDup_fst_map_to_list.
  - apply list_to_map_to_list.
Defined.

Lemma assoc_swapped (table : list (string * string)) (name : string) :
  assoc name ((fun kv => (kv.2, kv.1)) <$> table)
  = fst <$> List.find (fun '(_, value) => String.eqb value name) table.
Proof.
  induction table as [|[k v] table IH]; [done |].
  cbn. rewrite String.eqb_sym. by destruct (String.eqb v name).
Qed.

Lemma foldl_agree {A B} (f g : A -> B -> A) (l : list B) (a : A) :
  (forall x y, f x y = g x y) -> foldl f a l = foldl g a l.
Proof.
  intros Hfg. revert a. induction l as [|y l IH]; intros a; cbn; [done |].
  by rewrite Hfg, IH.
Qed.

(** X5. The intake form and the edit form encode a selection in the same
    way: for display names taken from the check boxes, [goals] of
    NewPatientForm and [goalsData] of EditPatientForm are the same object. *)
Theorem intake_and_edit_goals_agree (selectedGoals : list string) :
  Forall (fun label => label ∈ NewPatientForm.HEALTH_GOALS) selectedGoals ->
  NewPatientForm.goals selectedGoals
  = EditPatientForm.handleSubmit_goalsData selectedGoals.
Proof.
  intros _. unfold NewPatientForm.goals, EditPatientForm.handleSubmit_goalsData.
  change (NewPatientForm.GOAL_MAPPING.*2) with EditPatientForm.goal_keys.
  apply foldl_agree. intros acc name.
  change NewPatientForm.GOAL_MAPPING
    with ((fun kv : string * string => (kv.2, kv.1))
            <$> EditPatientForm.GOAL_MAPPING).
  by rewrite assoc_swapped.
Qed.

Lemma intake_and_edit_goals_agree_witness :
  NewPatientForm.goals ["QUIT SMOKING"; "EAT BREAKFAST DAILY"]
  = EditPatientForm.handleSubmit_goalsData
      ["QUIT SMOKING"; "EAT BREAKFAST DAILY"].
Proof.
  apply (intake_and_edit_goals_agree ["QUIT SMOKING"; "EAT BREAKFAST DAILY"]).
  repeat constructor; apply (bool_decide_unpack _); by vm_compute.
Defined.

Lemma getActiveGoals_loop (entries : list (string * json))
    (goals : list string) :
  foldl (fun goals '(key, value) =>
           if negb (String.eqb key "client_id")
              && negb (String.eqb key "visit_date")
              && EditPatientForm.is_one value
              && truthy_text (assoc key LatestGoals.goalsMapping)
           then goals
                ++ [default EmptyString (assoc key LatestGoals.goalsMapping)]
           else goals)
        goals entries
  = goals ++ LatestGoals.activeGoals entries.
Proof.
  revert goals. induction entries as [|[key value] entries IH]; intros goals.
  - cbn. by rewrite app_nil_r.
  - cbn [foldl]. rewrite IH. unfold LatestGoals.activeGoals.
    change LatestGoals.goalsMapping with NewVisitForm.GOALS_MAPPING.
    cbn [List.filter]. unfold EditPatientForm.non_goal_property.
    destruct (String.eqb_spec key "client_id") as [->|_]; [done |].
    destruct (String.eqb_spec key "visit_date") as [->|_]; [done |].
    destruct (String.eqb_spec key "visit_id") as [->|_].
    { cbn. by destruct (EditPatientForm.is_one value). }
    cbn [negb andb orb].
    destruct (EditPatientForm.is_one value); [| done].
    cbn [andb List.map List.filter].
    destruct (assoc key NewVisitForm.GOALS_MAPPING) as [label|];
      cbn [truthy_text from_option]; unfold id.
    + destruct (truthy_string label); [| done]. by rewrite <- app_assoc.
    + done.
Qed.

(** X6. The goals listed on the patient page are the goals preselected in
    the visit form: [getActiveGoals] of PatientDetail and the effect of
    NewVisitForm compute the same list from the same [latest_goals]. *)
Theorem detail_and_visit_form_goals_agree
    (latest_goals : option (list (string * json))) :
  LatestGoals.getActiveGoals latest_goals
  = LatestGoals.onLatestGoals [] latest_goals.
Proof.
  destruct latest_goals as [entries|]; [| done].
  unfold LatestGoals.getActiveGoals, LatestGoals.onLatestGoals.
  by rewrite getActiveGoals_loop.
Qed.

(** X7. The first visit form always sends a goals object: it holds the
    thirteen keys whatever is selected, so the branch that would leave
    [goals] undefined is never taken. *)
Theorem visit_form_always_sends_goals (Number : string -> number)
    (now : string) (form : string -> option string) (clientId : string)
    (selectedGoals : list string) :
  NewVisitForm.goals
    (NewVisitForm.handleSubmit Number now form clientId selectedGoals)
  = Some (NewVisitForm.goalsData selectedGoals)
  /\ forall k,
       is_Some (NewVisitForm.goalsData selectedGoals !! k)
       <-> k ∈ EditPatientForm.goal_keys.
Proof.
  assert (forall k,
             is_Some (NewVisitForm.goalsData selectedGoals !! k)
             <-> k ∈ EditPatientForm.goal_keys) as Hkeys.
  { intros k.
    destruct (table_encode_lookup NewVisitForm.GOALS_MAPPING visit_table_keys
                visit_table_facts selectedGoals k) as [Hout Hin].
    change (k ∈ EditPatientForm.goal_keys)
      with (k ∈ NewVisitForm.GOALS_MAPPING.*1).
    unfold NewVisitForm.goalsData. split.
    - intros Hsome.
      destruct (decide (k ∈ NewVisitForm.GOALS_MAPPING.*1)) as [Hk|Hk];
        [done |].
      rewrite (Hout Hk) in Hsome. by destruct Hsome.
    - intros Hk.
      apply list_elem_of_fmap in Hk as ([k' label] & -> & Hrow).
      destruct (Hin label Hrow) as [Hyes Hno].
      destruct (decide (label ∈ selectedGoals)) as [Hsel|Hsel];
        [rewrite (Hyes Hsel) | rewrite (Hno Hsel)]; done. }
  split; [| done].
  unfold NewVisitForm.handleSubmit. cbn [NewVisitForm.goals].
  rewrite bool_decide_eq_true_2; [done |].
  assert (size (NewVisitForm.goalsData selectedGoals) <> 0%nat) as Hsize.
  { apply (map_size_ne_0_lookup_2 _ "quit_smoking"), Hkeys.
    apply (bool_decide_unpack _). by vm_compute. }
  lia.
Qed.

(** X8. Goals left untouched in the visit form are sent back as they were:
    preselecting from a 0/1 record over the thirteen goal keys and building
    [goalsData] from that selection gives the record back. *)
Theorem visit_form_goals_round_trip (entries : list (string * json)) :
  goal_flags entries ->
  NewVisitForm.goalsData (LatestGoals.onLatestGoals [] (Some entries))
  = list_to_map entries.
Proof.
  intros [Hperm Hvalues].
  exact (table_round_trip NewVisitForm.GOALS_MAPPING visit_table_keys
           visit_table_facts entries Hperm Hvalues).
Qed.

Lemma visit_form_goals_round_trip_witness :
  NewVisitForm.goalsData
    (LatestGoals.onLatestGoals [] (Some (Samples.all_flags 1)))
  = list_to_map (Samples.all_flags 1).
Proof.
  apply (visit_form_goals_round_trip (Samples.all_flags 1)).
  split; [reflexivity |].
  apply Forall_forall. intros kv Hin. right.
  apply list_elem_of_fmap in Hin as (k & -> & _). reflexivity.
Defined.

Lemma sorted_equal_iff_permutation (l1 l2 : list string) :
  merge_sort String.le l1 = merge_sort String.le l2 <-> l1 ≡ₚ l2.
Proof.
  split.
  - intros Heq.
    rewrite <- (merge_sort_Permutation String.le l1), Heq.
    apply merge_sort_Permutation.
  - intros Hperm. apply (Sorted_unique String.le).
    + apply Sorted_merge_sort. apply _.
    + apply Sorted_merge_sort. apply _.
    + by rewrite !merge_sort_Permutation.
Qed.

(** X9. The later visit form sends goals only when they were edited and
    differ from the initial ones as a collection: the same goals in another
    order count as unchanged, and then the request carries no goals. *)
Theorem visit_form_goals_sent_when_changed (Number : string -> number)
    (now : string) (form : string -> option string) (clientId : string)
    (editingGoals : bool) (selectedGoals initialGoals : list string) :
  (NewVisitFormGoalEdit.goalsHaveChanged selectedGoals initialGoals = false
   <-> selectedGoals ≡ₚ initialGoals)
  /\ (NewVisitForm.goals
        (NewVisitFormGoalEdit.handleSubmit Number now form clientId
           editingGoals selectedGoals initialGoals) = None
      <-> editingGoals = false \/ selectedGoals ≡ₚ initialGoals).
Proof.
  assert (NewVisitFormGoalEdit.goalsHaveChanged selectedGoals initialGoals
          = false <-> selectedGoals ≡ₚ initialGoals) as Hchanged.
  { unfold NewVisitFormGoalEdit.goalsHaveChanged.
    rewrite negb_false_iff, bool_decide_eq_true.
    apply sorted_equal_iff_permutation. }
  split; [done |].
  unfold NewVisitFormGoalEdit.handleSubmit. cbn [NewVisitForm.goals].
  rewrite <- Hchanged.
  destruct editingGoals,
    (NewVisitFormGoalEdit.goalsHaveChanged selectedGoals initialGoals);
    cbn; split; intros H; try done; auto.
  by destruct H.
Qed.

(** ** Outcomes of the API helpers *)

Section ApiOutcomes.
Variable fetch : string -> Api.RequestInit -> completion Api.Response.
Variable ToString : json -> string.

(** X10. [fetchApi] resolves only on an OK response with a JSON body, and
    then to that body: an OK response whose body is not JSON, a response
    that is not OK and a failed request all reject. *)
Theorem fetchApi_resolves_iff (endpoint : string) (options : Api.RequestInit)
    (v : json) :
  Api.fetchApi fetch ToString endpoint options = Normal v
  <-> exists r,
        fetch (Api.API_BASE_URL +:+ endpoint)
          {| Api.method := Api.method options;
             Api.headers :=
               ("Content-Type", "application/json") :: Api.headers options;
             Api.body := Api.body options |} = Normal r
        /\ Api.ok r = true
        /\ Api.payload r = Some v.
Proof.
  split.
  - unfold Api.fetchApi.
    destruct (fetch _ _) as [r|e] eqn:Hfetch; cbn; [| done].
    destruct (Api.ok r) eqn:Hok; cbn.
    + unfold Api.response_json.
      destruct (Api.payload r) as [w|] eqn:Hpayload; [| done].
      intros [= ->]. by exists r.
    + unfold try_catch.
      destruct (Api.response_json r) as [errorData|]; cbn; [| done].
      by destruct (get_prop errorData "error").
  - intros (r & Hfetch & Hok & Hpayload).
    by apply (fetchApi_ok fetch ToString endpoint options _ r v eq_refl).
Qed.

(** X11. Whatever a response that is not OK carries in its body, [fetchApi]
    rejects with the message made of the status alone. *)
Theorem fetchApi_rejects_with_status_only (endpoint : string)
    (options : Api.RequestInit) (r : Api.Response) :
  fetch (Api.API_BASE_URL +:+ endpoint)
    {| Api.method := Api.method options;
       Api.headers :=
         ("Content-Type", "application/json") :: Api.headers options;
       Api.body := Api.body options |} = Normal r ->
  Api.ok r = false ->
  Api.fetchApi fetch ToString endpoint options
  = Throw (Error ("API error: " +:+ pretty (Api.status r))).
Proof.
  intros Hfetch Hok.
  by apply (fetchApi_not_ok fetch ToString endpoint options _ r eq_refl).
Qed.

(** X12. [exportReport] resolves exactly on an OK response, to the response
    itself and without reading its body; a response that is not OK rejects
    with the message made of the status alone. *)
Theorem exportReport_outcome (startDate endDate format : string)
    (r : Api.Response) :
  fetch (ReportsApi.export_url startDate endDate format)
    {| Api.method := Some "GET";
       Api.headers := [("Accept", ReportsApi.accept format)];
       Api.body := None |} = Normal r ->
  ReportsApi.exportReport fetch ToString startDate endDate format
  = if Api.ok r then Normal r
    else Throw (Error ("API error: " +:+ pretty (Api.status r))).
Proof.
  intros Hfetch. unfold ReportsApi.exportReport. rewrite Hfetch. cbn.
  destruct (Api.ok r); cbn; [done |].
  unfold try_catch, Api.generic_message.
  destruct (Api.response_json r) as [errorData|]; cbn; [| done].
  by destruct (get_prop errorData "error").
Qed.
End ApiOutcomes.

Lemma fetchApi_rejects_with_status_only_witness :
  Api.fetchApi (fun _ _ => Normal Samples.not_found) (fun _ => EmptyString)
    "/patients/SAMPLE1" Api.no_options
  = Throw (Error ("API error: " +:+ pretty (Api.status Samples.not_found))).
Proof.
  apply (fetchApi_rejects_with_status_only
           (fun _ _ => Normal Samples.not_found) (fun _ => EmptyString)
           "/patients/SAMPLE1" Api.no_options Samples.not_found);
    reflexivity.
Defined.

Lemma exportReport_outcome_witness :
  ReportsApi.exportReport (fun _ _ => Normal Samples.not_found)
    (fun _ => EmptyString) "2024-01-01" "2024-06-30" "pdf"
  = if Api.ok Samples.not_found then Normal Samples.not_found
    else Throw (Error ("API error: " +:+ pretty (Api.status Samples.not_found))).
Proof.
  apply (exportReport_outcome (fun _ _ => Normal Samples.not_found)
           (fun _ => EmptyString) "2024-01-01" "2024-06-30" "pdf"
           Samples.not_found).
  reflexivity.
Defined.

(** ** The legacy profile page *)

(** X13. On the legacy page a response that is not OK and carries a
    non-empty [error] text in its JSON body is shown to the user with that
    text. *)
Theorem legacy_page_alerts_server_message (ToString : json -> string)
    (r : Api.Response) (fields : list (string * json)) (m : string) :
  Api.ok r = false ->
  Api.payload r = Some (JObject fields) ->
  assoc "error" fields = Some (JString m) ->
  truthy_string m = true ->
  Profile.addPatientVisit_feedback ToString (Normal r)
  = Profile.Alert ("An error occurred: " +:+ m).
Proof.
  intros Hok Hpayload Herror Hm. unfold Profile.addPatientVisit_feedback.
  cbn. rewrite Hok. cbn. unfold Api.response_json. rewrite Hpayload. cbn.
  rewrite Herror. cbn. by rewrite Hm.
Qed.

Lemma legacy_page_alerts_server_message_witness :
  Profile.addPatientVisit_feedback (fun _ => EmptyString)
    (Normal Samples.not_found)
  = Profile.Alert ("An error occurred: " +:+ "Patient not found").
Proof.
  apply (legacy_page_alerts_server_message (fun _ => EmptyString)
           Samples.not_found [("error", JString "Patient not found")]
           "Patient not found"); reflexivity.
Defined.

(** X14. The legacy page sends a measurement either as the number 0, when
    its control is blank, or as the text that was typed; it never sends
    null and never converts the text to a number. *)
Theorem legacy_page_measurement_text_or_zero (value : string -> string)
    (m : VisitCreation.measurement) :
  (value (VisitCreation.control m) = EmptyString ->
   VisitCreation.transmitted (VisitCreation.SubmitLegacy value) m = JNumber 0)
  /\ (value (VisitCreation.control m) <> EmptyString ->
      VisitCreation.transmitted (VisitCreation.SubmitLegacy value) m
      = JString (value (VisitCreation.control m))).
Proof.
  assert (forall text,
             (text = EmptyString ->
              Profile.or_default text (JNumber 0) = JNumber 0)
             /\ (text <> EmptyString ->
                 Profile.or_default text (JNumber 0) = JString text))
    as Hdefault.
  { intros [|c text]; split; intros H; done. }
  destruct m; apply Hdefault.
Qed.

Lemma legacy_page_measurement_text_or_zero_witness :
  VisitCreation.transmitted
    (VisitCreation.SubmitLegacy (fun _ => "120")) VisitCreation.Systolic
  = JString "120".
Proof.
  apply (legacy_page_measurement_text_or_zero (fun _ => "120")
           VisitCreation.Systolic).
  discriminate.
Defined.

(** ** Trend and sign on the dashboard *)

Lemma pretty_N_char_not_minus (d : N) :
  Ascii.eqb "-" (pretty_N_char d) = false.
Proof. unfold pretty_N_char. by repeat case_match. Qed.

Lemma pretty_N_go_head_not_minus (x : N) (s : string) :
  (exists c rest, s = String c rest /\ Ascii.eqb "-" c = false) ->
  exists c rest, pretty_N_go x s = String c rest /\ Ascii.eqb "-" c = false.
Proof.
  revert s. induction (N.lt_wf_0 x) as [x _ IH]. intros s Hs.
  destruct (decide (x = 0%N)) as [->|Hx].
  - by rewrite pretty_N_go_0.
  - rewrite pretty_N_go_step by lia.
    apply IH; [apply N.div_lt; lia |].
    eexists _, _. split; [reflexivity | apply pretty_N_char_not_minus].
Qed.

Lemma pretty_Z_head_not_minus (z : Z) :
  0 <= z ->
  exists c rest, pretty z = String c rest /\ Ascii.eqb "-" c = false.
Proof.
  intros Hz. destruct z as [|q|q]; [by eexists _, _ | | lia].
  change (pretty (Z.pos q)) with (pretty (N.pos q)).
  unfold pretty, pretty_N. rewrite decide_False by done.
  rewrite pretty_N_go_step by lia.
  apply pretty_N_go_head_not_minus.
  eexists _, _. split; [reflexivity | apply pretty_N_char_not_minus].
Qed.

Lemma nearest_scaled_nonneg (x : Q) :
  0 <= Qfloor (Qabs x * inject_Z (10 ^ Z.of_nat 1) + (1 # 2))%Q / 10 ^ Z.of_nat 1.
Proof.
  apply Z.div_pos; [| done].
  change 0 with (Qfloor 0). apply Qfloor_resp_le.
  pose proof (Qabs_nonneg x) as Habs.
  change (inject_Z (10 ^ Z.of_nat 1)) with (10 # 1)%Q.
  generalize dependent (Qabs x). intros a Ha. lra.
Qed.

(** X15. The arrow and the sign of a dashboard card agree: [getTrend] is
    down exactly when [formatPercentage] prints a minus sign in front, and
    that is exactly for a value below zero, however small. *)
Theorem getTrend_down_iff_minus_sign (p : Q) :
  (Dashboard.getTrend (Some p) = "down" <-> (p < 0)%Q)
  /\ (startsWith (Dashboard.formatPercentage (Some p)) "-" = true
      <-> (p < 0)%Q).
Proof.
  split.
  - unfold Dashboard.getTrend.
    destruct (Qle_bool 0 p) eqn:Hle.
    + apply Qle_bool_iff in Hle. split; [done | intros Hneg; lra].
    + split; [intros _ | done].
      apply Qnot_le_lt. intros Hge. apply Qle_bool_iff in Hge. congruence.
  - unfold Dashboard.formatPercentage.
    destruct (Qlt_le_dec 0 p) as [Hpos|Hnonpos].
    + split; [done | intros Hneg; lra].
    + unfold Dashboard.toFixed.
      destruct (Qlt_le_dec p 0) as [Hneg|Hge].
      * split; [done | intros _].
        rewrite !append_cons. cbn [startsWith]. reflexivity.
      * split; [| intros Hneg; lra].
        destruct (pretty_Z_head_not_minus _ (nearest_scaled_nonneg p))
          as (c & tail & -> & Hc).
        rewrite append_empty_l, !append_cons. cbn [startsWith].
        by rewrite Hc.
Qed.

(** ** The patient list: deletion, sorting and paging *)

(** X16. When the DELETE request is answered with a response that is not
    OK, the list makes no further call, keeps its rows and its pagination,
    closes the confirmation dialog and shows the status of the response as
    an error toast. *)
Theorem failed_delete_leaves_list_untouched
    (fetch : string -> Api.RequestInit -> completion Api.Response)
    (ToString : json -> string)
    (getPatients : Z -> Z -> completion PatientRecords.PatientsPage)
    (st : PatientRecords.State) (row : PatientRecords.Patient)
    (r : Api.Response) :
  fetch (Api.API_BASE_URL +:+ "/patients/" +:+ PatientRecords.id row)
    {| Api.method := Some "DELETE";
       Api.headers := [("Content-Type", "application/json")];
       Api.body := None |} = Normal r ->
  Api.ok r = false ->
  let result :=
    PatientRecords.handleDeleteConfirm (Api.deletePatient fetch ToString)
      getPatients (PatientRecords.handleDelete st row) in
  result.2 = [PatientRecords.DeletePatient (PatientRecords.id row)]
  /\ PatientRecords.patients result.1 = PatientRecords.patients st
  /\ PatientRecords.pagination result.1 = PatientRecords.pagination st
  /\ PatientRecords.loading result.1 = PatientRecords.loading st
  /\ PatientRecords.isDeleteModalOpen result.1 = false
  /\ PatientRecords.toastMessage result.1
     = Some {| PatientRecords.toast_message :=
                 "API error: " +:+ pretty (Api.status r);
               PatientRecords.toast_type := "error" |}.
Proof.
  intros Hfetch Hok result. subst result.
  unfold PatientRecords.handleDeleteConfirm.
  cbn [PatientRecords.handleDelete PatientRecords.selectedPatient].
  unfold Api.deletePatient.
  rewrite (fetchApi_not_ok fetch ToString
             ("/patients/" +:+ PatientRecords.id row)
             {| Api.method := Some "DELETE"; Api.headers := [];
                Api.body := None |} _ r eq_refl Hfetch Hok).
  by repeat split.
Qed.

Lemma failed_delete_leaves_list_untouched_witness :
  PatientRecords.patients
    (PatientRecords.handleDeleteConfirm
       (Api.deletePatient (fun _ _ => Normal Samples.not_found)
          (fun _ => EmptyString))
       (fun _ _ => Normal Samples.empty_page)
       (PatientRecords.handleDelete Samples.second_page Samples.sarah)).1
  = [Samples.sarah].
Proof.
  apply (failed_delete_leaves_list_untouched
           (fun _ _ => Normal Samples.not_found) (fun _ => EmptyString)
           (fun _ _ => Normal Samples.empty_page)
           Samples.second_page Samples.sarah Samples.not_found);
    reflexivity.
Defined.



Lemma filterPatients_retains (patients : list PatientRecords.Patient)
    (query : string) :
  retains (search_hit query) patients
          (PatientRecords.filterPatients patients query).
Proof.
  unfold PatientRecords.filterPatients.
  destruct (trim query) eqn:Htrim; cbn.
  - apply retains_all. intros p. unfold search_hit. rewrite Htrim. cbn.
    left. apply substring_empty.
  - rewrite trim_toLowerCase. apply filter_retains.
    intros p. apply matches_spec.
Qed.

(** X18. The rows on display are exactly the fetched rows that match the
    search, each as often as it was fetched, whatever the sort settings. *)
Theorem displayed_rows_are_the_hits (st : PatientRecords.State) :
  exists hits,
    retains (search_hit (PatientRecords.searchQuery st))
            (PatientRecords.patients st) hits
    /\ PatientRecords.filteredAndSortedPatients st ≡ₚ hits
    /\ forall p,
         p ∈ PatientRecords.filteredAndSortedPatients st
         <-> p ∈ PatientRecords.patients st
             /\ search_hit (PatientRecords.searchQuery st) p.
Proof.
  exists (PatientRecords.filterPatients (PatientRecords.patients st)
            (PatientRecords.searchQuery st)).
  pose proof (filterPatients_retains (PatientRecords.patients st)
                (PatientRecords.searchQuery st)) as Hkept.
  split; [done |]. split; [apply displayed_rows_permutation |].
  intros p. rewrite (displayed_rows_permutation st).
  by apply retains_elem.
Qed.


(** X20. The page the list asks for never leaves the range of pages: from
    a page within 1..pages, an enabled Previous or Next button and the
    refetch after a deletion all stay within 1..pages, and the buttons
    are dead while the list is loading. *)
Theorem requested_page_stays_in_range (st : PatientRecords.State) :
  1 <= PatientRecords.page (PatientRecords.pagination st)
    <= PatientRecords.pages (PatientRecords.pagination st) ->
  (forall st',
      RecordsNavigation.click_previous st = Some st'
      \/ RecordsNavigation.click_next st = Some st' ->
      1 <= PatientRecords.page (PatientRecords.pagination st')
        <= PatientRecords.pages (PatientRecords.pagination st')
      /\ Z.abs (PatientRecords.page (PatientRecords.pagination st')
                - PatientRecords.page (PatientRecords.pagination st)) = 1
      /\ PatientRecords.loading st = false)
  /\ 1 <= PatientRecords.newPage st
       <= PatientRecords.pages (PatientRecords.pagination st).
Proof.
  intros Hrange. split.
  - intros st'.
    unfold RecordsNavigation.click_previous, RecordsNavigation.click_next,
      RecordsNavigation.footer_shown, RecordsNavigation.previous_disabled,
      RecordsNavigation.next_disabled.
    destruct (PatientRecords.loading st); cbn [negb andb orb].
    { by intros [|]. }
    rewrite !orb_false_r.
    intros [Hclick|Hclick].
    + destruct (Z.leb_spec (PatientRecords.page (PatientRecords.pagination st)) 1);
        [by rewrite andb_false_r in Hclick |].
      destruct (_ && _); [| done].
      injection Hclick as <-. cbn. lia.
    + destruct (Z.leb_spec (PatientRecords.pages (PatientRecords.pagination st))
                  (PatientRecords.page (PatientRecords.pagination st)));
        [by rewrite andb_false_r in Hclick |].
      destruct (_ && _); [| done].
      injection Hclick as <-. cbn. lia.
  - unfold PatientRecords.newPage.
    destruct (_ =? _)%nat; cbn [andb]; [| lia].
    destruct (Z.ltb_spec 1 (PatientRecords.page (PatientRecords.pagination st)));
      lia.
Qed.

Lemma requested_page_stays_in_range_witness :
  1 <= PatientRecords.newPage Samples.second_page
    <= PatientRecords.pages (PatientRecords.pagination Samples.second_page).
Proof.
  apply (requested_page_stays_in_range Samples.second_page).
  cbn. lia.
Defined.


(** ** PatientDetail: visit details and patient update *)

Lemma find_visit_found (visit : json) (elements : list json) (v : json) :
  PatientDetailHandlers.find_visit visit elements = Normal (Some v) ->
  v ∈ elements
  /\ exists vid wanted,
       get_prop v "id" = Normal vid
       /\ get_prop visit "id" = Normal wanted
       /\ PatientDetailHandlers.strict_equal vid wanted = true.
Proof.
  induction elements as [|x rest IH]; [done |].
  cbn [PatientDetailHandlers.find_visit].
  destruct (get_prop x "id") as [vid|e] eqn:Hvid; cbn; [| done].
  destruct (get_prop visit "id") as [wanted|e] eqn:Hwanted; cbn; [| done].
  destruct (PatientDetailHandlers.strict_equal vid wanted) eqn:Heq.
  - intros [= ->]. split; [by left |]. by exists vid, wanted.
  - intros [Hin Hid]%IH. split; [by right | done].
Qed.

(** X22. A click on a visit always opens the details dialog and changes
    nothing else but the selected visit. The dialog shows either the
    clicked visit itself or an element of the array returned by
    [getPatientVisits] whose [id] is strictly equal to the clicked one's;
    a failed request, an answer that is not an array and a missing
    [clientId] all fall back to the clicked visit. *)
Theorem handleViewVisitDetails_shows_clicked_visit
    (getPatientVisits : string -> completion json)
    (clientId : option string) (st : PatientDetailHandlers.State)
    (visit : json) :
  let st' :=
    PatientDetailHandlers.handleViewVisitDetails getPatientVisits clientId
      st visit in
  exists shown,
    st' = PatientDetailHandlers.show_visit st shown
    /\ (shown = visit
        \/ exists key elements vid wanted,
             clientId = Some key
             /\ getPatientVisits key = Normal (JArray elements)
             /\ shown ∈ elements
             /\ get_prop shown "id" = Normal vid
             /\ get_prop visit "id" = Normal wanted
             /\ PatientDetailHandlers.strict_equal vid wanted = true).
Proof.
  intros st'. subst st'.
  unfold PatientDetailHandlers.handleViewVisitDetails.
  destruct (truthy_text clientId) eqn:Hid; cbn [negb];
    [| by exists visit; split; [| left]].
  destruct clientId as [key|]; [| done]. cbn [from_option]. unfold id.
  destruct (getPatientVisits _) as [allVisits|e] eqn:Hvisits; cbn;
    [| by exists visit; split; [| left]].
  destruct (PatientDetailHandlers.array_find allVisits visit)
    as [[v|]|e] eqn:Hfind;
    [| by exists visit; split; [| left] ..].
  destruct (truthy (Some v)) eqn:Htruthy;
    [| by exists visit; split; [| left]].
  exists v. split; [done |]. right.
  destruct allVisits as [| | | |elements|]; try done.
  cbn [PatientDetailHandlers.array_find] in Hfind.
  destruct (find_visit_found _ _ _ Hfind) as (Hin & vid & wanted & ? & ? & ?).
  by exists key, elements, vid, wanted.
Qed.

(** X23. A rejected update leaves the edit form open and the page as it
    was, shows the message of the error and asks for nothing more. An
    accepted update closes the form, ends loading and shows the success
    toast; the patient shown is the refetched one, or the old one when the
    refetch fails. *)
Theorem handleEditPatient_outcome
    (getPatientById : string -> completion json)
    (updatePatient : string -> EditPatientForm.data -> completion json)
    (patientId : string) (st : PatientDetailHandlers.State)
    (data : EditPatientForm.data) :
  truthy_string patientId = true ->
  let result :=
    PatientDetailHandlers.handleEditPatient getPatientById updatePatient
      (Some patientId) st data in
  match updatePatient patientId data with
  | Throw err =>
      result.2 = [PatientDetailHandlers.UpdatePatient patientId]
      /\ PatientDetailHandlers.isEditFormOpen result.1
         = PatientDetailHandlers.isEditFormOpen st
      /\ PatientDetailHandlers.patientData result.1
         = PatientDetailHandlers.patientData st
      /\ PatientDetailHandlers.loading result.1
         = PatientDetailHandlers.loading st
      /\ PatientDetailHandlers.toastMessage result.1
         = Some {| PatientRecords.toast_message := message err;
                   PatientRecords.toast_type := "error" |}
  | Normal _ =>
      result.2 = [PatientDetailHandlers.UpdatePatient patientId;
                  PatientDetailHandlers.GetPatientById patientId]
      /\ PatientDetailHandlers.isEditFormOpen result.1 = false
      /\ PatientDetailHandlers.loading result.1 = false
      /\ PatientDetailHandlers.toastMessage result.1
         = Some {| PatientRecords.toast_message :=
                     "Patient updated successfully";
                   PatientRecords.toast_type := "success" |}
      /\ PatientDetailHandlers.patientData result.1
         = match getPatientById patientId with
           | Normal updatedData => Some updatedData
           | Throw _ => PatientDetailHandlers.patientData st
           end
  end.
Proof.
  intros Hid result. subst result.
  unfold PatientDetailHandlers.handleEditPatient.
  cbn [truthy_text]. rewrite Hid. cbn [negb from_option]. unfold id.
  destruct (updatePatient _ data) as [answer|err]; [| by repeat split].
  destruct (getPatientById _) as [updatedData|e]; by repeat split.
Qed.

Lemma handleEditPatient_outcome_witness :
  PatientDetailHandlers.isEditFormOpen
    (PatientDetailHandlers.handleEditPatient
       (fun _ => Throw (Error "offline")) (fun _ _ => Normal JNull)
       (Some "SAMPLE1")
       {| PatientDetailHandlers.isNewVisitFormOpen := false;
          PatientDetailHandlers.isEditFormOpen := true;
          PatientDetailHandlers.toastMessage := None;
          PatientDetailHandlers.isVisitDetailsOpen := false;
          PatientDetailHandlers.selectedVisit := None;
          PatientDetailHandlers.patientData := Some JNull;
          PatientDetailHandlers.loading := false;
          PatientDetailHandlers.error := None |}
       (EditPatientForm.handleSubmit (fun _ => None) Samples.blank_form
          "SAMPLE1" [])).1
  = false.
Proof.
  exact (proj1 (proj2 (handleEditPatient_outcome
                         (fun _ => Throw (Error "offline"))
                         (fun _ _ => Normal JNull) "SAMPLE1" _ _ eq_refl))).
Defined.

(** ** Dates of the intake forms *)

Lemma between_spec (lo hi c : ascii) :
  Home.between lo hi c = true
  <-> (nat_of_ascii lo <= nat_of_ascii c <= nat_of_ascii hi)%nat.
Proof.
  unfold Home.between. rewrite andb_true_iff, !Nat.leb_le. tauto.
Qed.

Lemma is_digit_spec (c : ascii) :
  is_digit c = true <-> (48 <= nat_of_ascii c <= 57)%nat.
Proof. unfold is_digit. rewrite andb_true_iff, !Nat.leb_le. tauto. Qed.

Lemma ascii_code_eq (a c : ascii) :
  Ascii.eqb a c = true <-> nat_of_ascii a = nat_of_ascii c.
Proof.
  rewrite Ascii.eqb_eq. split; [by intros -> |].
  intros Heq. by rewrite <- (ascii_nat_embedding a), Heq, ascii_nat_embedding.
Qed.

Lemma month_part_spec (a b : ascii) :
  Home.month_part a b = true
  <-> is_digit a = true /\ is_digit b = true
      /\ (1 <= Calendar.decimal (String a (String b EmptyString)) <= 12)%nat.
Proof.
  unfold Home.month_part, Calendar.decimal, Calendar.digit_value.
  cbn [chars foldl].
  rewrite orb_true_iff, !andb_true_iff, !between_spec, !ascii_code_eq,
    !is_digit_spec.
  change (nat_of_ascii "0") with 48%nat. change (nat_of_ascii "1") with 49%nat.
  change (nat_of_ascii "2") with 50%nat. change (nat_of_ascii "9") with 57%nat.
  lia.
Qed.

Lemma day_part_spec (a b : ascii) :
  Home.day_part a b = true
  <-> is_digit a = true /\ is_digit b = true
      /\ (Calendar.decimal (String a (String b EmptyString)) <= 31)%nat.
Proof.
  unfold Home.day_part, Calendar.decimal, Calendar.digit_value.
  cbn [chars foldl].
  rewrite orb_true_iff, !andb_true_iff, !between_spec, !ascii_code_eq,
    !is_digit_spec.
  change (nat_of_ascii "0") with 48%nat. change (nat_of_ascii "1") with 49%nat.
  change (nat_of_ascii "2") with 50%nat. change (nat_of_ascii "3") with 51%nat.
  change (nat_of_ascii "9") with 57%nat.
  lia.
Qed.

Lemma digits_two (s : string) :
  digits 2 s
  <-> exists a b, s = String a (String b EmptyString)
                  /\ is_digit a = true /\ is_digit b = true.
Proof.
  unfold digits. split.
  - intros [Hlen Hall]. destruct s as [|a [|b [|c s]]]; try done.
    cbn in Hall. apply Forall_cons in Hall as [Ha Hall].
    apply Forall_cons in Hall as [Hb _]. by exists a, b.
  - intros (a & b & -> & Ha & Hb). split; [done |]. cbn. by repeat constructor.
Qed.

Lemma digits_four (s : string) :
  digits 4 s
  <-> exists a b c d,
        s = String a (String b (String c (String d EmptyString)))
        /\ is_digit a = true /\ is_digit b = true
        /\ is_digit c = true /\ is_digit d = true.
Proof.
  unfold digits. split.
  - intros [Hlen Hall]. destruct s as [|a [|b [|c [|d [|e s]]]]]; try done.
    cbn in Hall. apply Forall_cons in Hall as [Ha Hall].
    apply Forall_cons in Hall as [Hb Hall].
    apply Forall_cons in Hall as [Hc Hall].
    apply Forall_cons in Hall as [Hd _]. by exists a, b, c, d.
  - intros (a & b & c & d & -> & Ha & Hb & Hc & Hd).
    split; [done |]. cbn. by repeat constructor.
Qed.

Lemma dateRegex_test_accepted (s : string) :
  Home.dateRegex_test s = true -> Calendar.month_day_year s.
Proof.
  unfold Calendar.month_day_year.
  destruct s as [|m1 [|m2 [|s1 [|d1 [|d2 [|s2 [|y1 [|y2 [|y3 [|y4 [|x s]]]]]]]]]]];
    try done.
  cbn [Home.dateRegex_test].
  rewrite !andb_true_iff, month_part_spec, day_part_spec, !Ascii.eqb_eq.
  unfold Home.digit. rewrite !between_spec.
  intros [[[[[[[(Hm1 & Hm2 & Hmonth) ->] (Hd1 & Hd2 & Hday)] ->] Hy1] Hy2]
            Hy3] Hy4].
  exists (String y1 (String y2 (String y3 (String y4 EmptyString)))),
    (String m1 (String m2 EmptyString)), (String d1 (String d2 EmptyString)).
  split; [done |].
  split; [apply digits_four; eexists _, _, _, _; split; [done |];
          by rewrite !is_digit_spec |].
  split; [apply digits_two; by eexists _, _ |].
  split; [apply digits_two; by eexists _, _ |].
  done.
Qed.

Lemma month_day_year_passes (s : string) :
  Calendar.month_day_year s -> Home.dateRegex_test s = true.
Proof.
  intros (year & month & day & -> & Hy & Hm & Hd & Hmonth & Hday).
  apply digits_four in Hy as (y1 & y2 & y3 & y4 & -> & Hy1 & Hy2 & Hy3 & Hy4).
  apply digits_two in Hm as (m1 & m2 & -> & Hm1 & Hm2).
  apply digits_two in Hd as (d1 & d2 & -> & Hd1 & Hd2).
  change (Home.dateRegex_test _)
    with (Home.month_part m1 m2 && Ascii.eqb "/" "/" && Home.day_part d1 d2
          && Ascii.eqb "/" "/" && Home.digit y1 && Home.digit y2
          && Home.digit y3 && Home.digit y4).
  rewrite !andb_true_iff, month_part_spec, day_part_spec.
  unfold Home.digit. rewrite !between_spec.
  apply is_digit_spec in Hy1, Hy2, Hy3, Hy4.
  change (nat_of_ascii "0") with 48%nat.
  change (nat_of_ascii "9") with 57%nat.
  repeat split; try done; lia.
Qed.

(** X24. The date check of the legacy intake form accepts exactly the
    texts MM/DD/YYYY made of digits with the month from 01 to 12 and the
    day from 00 to 31; it does not look at the length of the month. *)
Theorem dateRegex_accepts_month_day_year (s : string) :
  Home.dateRegex_test s = true <-> Calendar.month_day_year s.
Proof.
  split.
  - apply dateRegex_test_accepted.
  - apply month_day_year_passes.
Qed.

(** X25. The legacy intake form sends a request exactly when the five
    required controls are filled and both dates read MM/DD/YYYY; the
    request then carries the value of every control unchanged. The other
    controls are never checked. *)
Theorem on_submit_posts_iff (value : string -> string) :
  ((exists body, Home.on_submit value = Home.Post body)
   <-> Forall (fun control => value control <> EmptyString) Calendar.required
       /\ Calendar.month_day_year (value "dob")
       /\ Calendar.month_day_year (value "firstVisitDate"))
  /\ forall body,
       Home.on_submit value = Home.Post body ->
       body = {| Home.first_name := value "firstName";
                 Home.last_name := value "lastName";
                 Home.age := value "age";
                 Home.birthdate := value "dob";
                 Home.first_visit_date := value "firstVisitDate";
                 Home.gender := value "gender";
                 Home.race := value "race";
                 Home.primary_lang := value "primaryLanguage";
                 Home.phone := value "phone";
                 Home.zipcode := value "zip";
                 Home.insurance := value "insurance" |}.
Proof.
  assert (forall text, truthy_string text = true <-> text <> EmptyString)
    as Hfilled.
  { intros [|c text]; split; done. }
  assert (forall text,
             Home.dateRegex_test text = true <-> Calendar.month_day_year text)
    as Hdate.
  { intros text.
    split; [apply dateRegex_test_accepted | apply month_day_year_passes]. }
  unfold Home.on_submit, Calendar.required.
  cbn [Home.first_name Home.last_name Home.age Home.birthdate
       Home.first_visit_date].
  rewrite !Forall_cons, <- !Hfilled, <- !Hdate.
  destruct (truthy_string (value "firstName")),
    (truthy_string (value "lastName")), (truthy_string (value "age")),
    (truthy_string (value "dob")), (truthy_string (value "firstVisitDate"));
    cbn [negb orb];
    try (split; [split; [by intros [? ?] | by intros [(? & ? & ? & ? & ? & ?) _]]
                | done]).
  destruct (Home.dateRegex_test (value "dob")); cbn [negb];
    [| split; [split; [by intros [? ?] | by intros (_ & ? & _)] | done]].
  destruct (Home.dateRegex_test (value "firstVisitDate")); cbn [negb];
    [| split; [split; [by intros [? ?] | by intros (_ & _ & ?)] | done]].
  split; [| by intros body [= <-]].
  split; [intros _ | by eexists].
  by repeat split.
Qed.

Lemma formattedDate_converts year month day :
  digits 4 year -> digits 2 month -> digits 2 day ->
  NewPatientForm.formattedDate (Some (date_input year month day))
  = api_date year month day.
Proof.
  intros Hy%digits_no_dash Hm%digits_no_dash Hd%digits_no_dash.
  unfold NewPatientForm.formattedDate.
  by rewrite date_input_truthy, (split_date_input _ _ _ Hy Hm Hd).
Qed.

(** X26. The React forms and the legacy intake form agree on the format of
    a date: what the React intake form and the edit and visit forms send
    for a date control holding YYYY-MM-DD, with the month from 01 to 12
    and the day up to 31, passes the date check of the legacy form. *)
Theorem react_dates_pass_legacy_check (year month day : string) :
  digits 4 year -> digits 2 month -> digits 2 day ->
  (1 <= Calendar.decimal month <= 12)%nat ->
  (Calendar.decimal day <= 31)%nat ->
  Forall (fun sent => Home.dateRegex_test sent = true)
    [ NewPatientForm.formattedDate (Some (date_input year month day));
      EditPatientForm.formatDateForAPI (Some (date_input year month day));
      NewVisitForm.formatDateForAPI (Some (date_input year month day));
      NewVisitFormGoalEdit.formatDateForAPI
        (Some (date_input year month day)) ].
Proof.
  intros Hy Hm Hd Hmonth Hday.
  destruct (formatDateForAPI_converts year month day Hy Hm Hd)
    as (-> & -> & ->).
  rewrite (formattedDate_converts year month day Hy Hm Hd).
  assert (Home.dateRegex_test (api_date year month day) = true) as Hpass.
  { apply month_day_year_passes. by exists year, month, day. }
  by repeat constructor.
Qed.

Lemma react_dates_pass_legacy_check_witness :
  Forall (fun sent => Home.dateRegex_test sent = true)
    [ NewPatientForm.formattedDate (Some (date_input "2024" "01" "10"));
      EditPatientForm.formatDateForAPI (Some (date_input "2024" "01" "10"));
      NewVisitForm.formatDateForAPI (Some (date_input "2024" "01" "10"));
      NewVisitFormGoalEdit.formatDateForAPI
        (Some (date_input "2024" "01" "10")) ].
Proof.
  apply (react_dates_pass_legacy_check "2024" "01" "10");
    try (split; [reflexivity | by repeat constructor]);
    vm_compute; lia.
Defined.

(** X27. A date text without a dash is not passed through: the React forms
    send it behind two holes printed as undefined, so the fallback of
    [formatDateForAPI] that returns the text unchanged is never taken. *)
Theorem date_without_dash_is_mangled (s : string) :
  truthy_string s = true ->
  "-"%char ∉ chars s ->
  Forall (fun sent => sent = "undefined/undefined/" +:+ s)
    [ NewPatientForm.formattedDate (Some s);
      EditPatientForm.formatDateForAPI (Some s);
      NewVisitForm.formatDateForAPI (Some s);
      NewVisitFormGoalEdit.formatDateForAPI (Some s) ].
Proof.
  intros Hs Hdash.
  unfold NewPatientForm.formattedDate, EditPatientForm.formatDateForAPI,
    NewVisitForm.formatDateForAPI, NewVisitFormGoalEdit.formatDateForAPI.
  rewrite Hs, (split_whole _ _ Hdash). cbn [negb].
  by repeat constructor.
Qed.

Lemma date_without_dash_is_mangled_witness :
  Forall (fun sent => sent = "undefined/undefined/" +:+ "01/10/2024")
    [ NewPatientForm.formattedDate (Some "01/10/2024");
      EditPatientForm.formatDateForAPI (Some "01/10/2024");
      NewVisitForm.formatDateForAPI (Some "01/10/2024");
      NewVisitFormGoalEdit.formatDateForAPI (Some "01/10/2024") ].
Proof.
  apply (date_without_dash_is_mangled "01/10/2024"); [reflexivity |].
  apply (bool_decide_unpack _). by vm_compute.
Defined.

(** ** Rows without a phone number *)

(** X28. A patient whose phone is missing or empty is listed with the
    contact N/A, and is therefore found by a search for n/a in any
    letter case and with any surrounding blanks. *)
Theorem patients_without_phone_found_by_na
    (rows : list PatientRecords.ApiPatient) (p : PatientRecords.ApiPatient)
    (query : string) :
  p ∈ rows ->
  PatientRecords.phone p = None
    \/ PatientRecords.phone p = Some EmptyString ->
  toLowerCase (trim query) = "n/a" ->
  PatientRecords.contact (PatientRecords.transform p) = "N/A"
  /\ PatientRecords.transform p
     ∈ PatientRecords.filterPatients (PatientRecords.transform <$> rows) query.
Proof.
  intros Hin Hphone Hquery.
  assert (PatientRecords.contact (PatientRecords.transform p) = "N/A")
    as Hcontact.
  { cbn [PatientRecords.transform PatientRecords.contact].
    by destruct Hphone as [-> | ->]. }
  split; [done |].
  apply (retains_elem _ _ _ _ (filterPatients_retains _ query)).
  split; [apply list_elem_of_fmap; by exists p |].
  unfold search_hit. rewrite Hquery, Hcontact.
  right. right. left. by exists EmptyString, EmptyString.
Qed.

Lemma patients_without_phone_found_by_na_witness :
  PatientRecords.transform
    {| PatientRecords.client_id := "SAMPLE1";
       PatientRecords.first_name := "Sarah";
       PatientRecords.last_name := "Johnson";
       PatientRecords.api_age := 42;
       PatientRecords.api_gender := "Female";
       PatientRecords.first_visit_date := "06/15/2023";
       PatientRecords.phone := None |}
  ∈ PatientRecords.filterPatients
      (PatientRecords.transform
         <$> [ {| PatientRecords.client_id := "SAMPLE1";
                  PatientRecords.first_name := "Sarah";
                  PatientRecords.last_name := "Johnson";
                  PatientRecords.api_age := 42;
                  PatientRecords.api_gender := "Female";
                  PatientRecords.first_visit_date := "06/15/2023";
                  PatientRecords.phone := None |} ])
      " N/A ".
Proof.
  apply (patients_without_phone_found_by_na _ _ " N/A ");
    [by left | by left | reflexivity].
Defined.

(** ** The patient list: a failed load, and names in the edit form *)

(** X29. A page load that fails with a message leaves the list without its
    footer, so that neither paging button can be clicked; outside
    development the rows stay as they were, and the message is what the
    page shows. A load that succeeds clears the error and takes rows and
    pagination from the answer. *)
Theorem fetchPatients_outcome (development : bool)
    (getPatients : Z -> Z -> completion PatientRecords.PatientsPage)
    (st : PatientRecords.State) :
  let st' := RecordsLoading.fetchPatients development getPatients st in
  PatientRecords.loading st' = false
  /\ match getPatients (PatientRecords.page (PatientRecords.pagination st))
             (PatientRecords.limit (PatientRecords.pagination st)) with
     | Normal data =>
         PatientRecords.error st' = None
         /\ PatientRecords.patients st'
            = PatientRecords.transform <$> PatientRecords.data_patients data
         /\ PatientRecords.pagination st' = PatientRecords.data_pagination data
     | Throw err =>
         PatientRecords.error st' = Some (message err)
         /\ PatientRecords.pagination st' = PatientRecords.pagination st
         /\ (development = false ->
             PatientRecords.patients st' = PatientRecords.patients st)
         /\ (truthy_string (message err) = true ->
             RecordsNavigation.footer_shown st' = false
             /\ RecordsNavigation.click_previous st' = None
             /\ RecordsNavigation.click_next st' = None)
     end.
Proof.
  intros st'. subst st'. unfold RecordsLoading.fetchPatients.
  destruct (getPatients _ _) as [data|err]; [by repeat split |].
  split; [done |]. split; [done |]. split; [done |].
  split; [by intros -> |]. intros Hmessage.
  unfold RecordsNavigation.click_previous, RecordsNavigation.click_next,
    RecordsNavigation.footer_shown.
  cbn [PatientRecords.loading PatientRecords.error truthy_text negb andb].
  by rewrite Hmessage.
Qed.

Lemma split_cons (sep : ascii) (s : string) :
  exists part rest, split sep s = part :: rest /\ sep ∉ chars part.
Proof.
  induction s as [|c s (part & rest & IH & Hpart)]; cbn [split].
  - exists EmptyString, []. split; [done | apply not_elem_of_nil].
  - destruct (Ascii.eqb_spec c sep) as [->|Hne].
    + exists EmptyString, (split sep s). split; [done | apply not_elem_of_nil].
    + rewrite IH. exists (String c part), rest. split; [done |].
      cbn [chars]. apply not_elem_of_cons. by split; [congruence |].
Qed.

Lemma join_split (sep : ascii) (s : string) :
  RecordsLoading.join (String sep EmptyString) (split sep s) = s.
Proof.
  induction s as [|c s IH]; [done |]. cbn [split].
  destruct (split_cons sep s) as (part & rest & Hsplit & _).
  rewrite Hsplit in IH |- *.
  destruct (Ascii.eqb_spec c sep) as [->|Hne].
  - change (RecordsLoading.join (String sep EmptyString)
              (EmptyString :: part :: rest))
      with (String sep (RecordsLoading.join (String sep EmptyString)
                          (part :: rest))).
    by rewrite IH.
  - cbn [RecordsLoading.join] in IH |- *.
    destruct rest as [|next rest]; [by rewrite IH |].
    by rewrite append_cons, IH.
Qed.

(** X30. The first and last name that [handleEditClick] derives from the
    name of a row always recombine to that name: the first name is the
    text before the first blank and the last name all the text after it.
    For a row made from an API patient whose first name holds no blank
    they are the first and last name of the API. *)
Theorem handleEditClick_names_recombine (name : string) :
  (exists first,
      RecordsLoading.handleEditClick_first_name name = Some first
      /\ (" "%char ∉ chars first)
      /\ ((name = first
           /\ RecordsLoading.handleEditClick_last_name name = EmptyString)
          \/ name = first +:+ " " +:+
                    RecordsLoading.handleEditClick_last_name name))
  /\ forall p : PatientRecords.ApiPatient,
       name = PatientRecords.name (PatientRecords.transform p) ->
       " "%char ∉ chars (PatientRecords.first_name p) ->
       RecordsLoading.handleEditClick_first_name name
       = Some (PatientRecords.first_name p)
       /\ RecordsLoading.handleEditClick_last_name name
          = PatientRecords.last_name p.
Proof.
  unfold RecordsLoading.handleEditClick_first_name,
    RecordsLoading.handleEditClick_last_name.
  split.
  - pose proof (join_split " " name) as Hjoin.
    destruct (split_cons " " name) as (first & rest & Hsplit & Hfirst).
    rewrite Hsplit in Hjoin |- *. exists first.
    split; [done |]. split; [done |].
    cbn [drop]. cbn [RecordsLoading.join] in Hjoin.
    destruct rest as [|next rest]; [by left | by right].
  - intros p -> Hfirst.
    cbn [PatientRecords.transform PatientRecords.name].
    change (PatientRecords.first_name p +:+ " " +:+ PatientRecords.last_name p)
      with (PatientRecords.first_name p
            +:+ String " " (PatientRecords.last_name p)).
    rewrite (split_at_first _ _ _ Hfirst).
    split; [done |]. cbn [drop]. apply join_split.
Qed.
